(** * WasteNot: the Address model (src/wastenot/models/address.py)

    A shallow embedding of the [Address] dataclass and the [State]
    enumeration, and the properties of construction, formatting,
    geocoding and (de)serialisation.

    Conventions.
    - Python values are the inductive [pyval]; a [dict] keeps its entries
      in insertion order, as Python does, with one entry per key.
    - Python floats are binary64 numbers, Rocq's primitive floats.
    - Exceptions are values of [exn]; a computation that can raise returns
      a [result].
    - The [json] module and [requests] are libraries, not code of this
      repository.  A JSON text is represented by the document it spells
      ([JsonText]) or, when it spells none, by [BadText]; [json_dumps] and
      [json_loads] convert between Python values and documents following
      the conversion table of the library (a tuple is written as an array,
      an array is read as a list, of a repeated key the last value wins).
      [requests.get] is an oracle of the environment, and every call of it
      is recorded in a trace.
    - Limits of the model.  CPython refuses to write or read an integer of
      more than 4300 digits ([str], an f-string, [json.dumps] and
      [json.loads] raise [ValueError]); the model writes and reads every
      integer, and a property that depends on it is stated for the integers
      that CPython writes ([printable]) or on what [json_loads] returns.  A
      dict finds a key that is the very object looked up before it compares
      with [==]; the model compares with [==], which differs for a NaN only
      ([self_equal]). *)

From Stdlib Require Import Floats.PrimFloat Floats.SpecFloat Floats.FloatOps.
From Stdlib Require Import ZArith Ascii String List Bool DecimalString.
Import ListNotations.

Set Warnings "-register-all".

Local Open Scope list_scope.
Local Open Scope string_scope.

(* ================================================================= *)
(** ** Python values *)

(** Lookup in an insertion-ordered dictionary. *)
Fixpoint dict_get {V : Type} (k : string) (d : list (string * V)) : option V :=
  match d with
  | [] => None
  | (k', v) :: rest => if String.eqb k k' then Some v else dict_get k rest
  end.

(** [d[k] = v]: the value of an existing key is replaced where it stands,
    a new key is added at the end. *)
Fixpoint dict_set {V : Type} (k : string) (v : V) (d : list (string * V))
  : list (string * V) :=
  match d with
  | [] => [(k, v)]
  | (k', v') :: rest =>
      if String.eqb k k' then (k', v) :: rest else (k', v') :: dict_set k v rest
  end.

(** The dictionary built by assigning the pairs from left to right. *)
Definition dict_of_pairs {V : Type} (ps : list (string * V)) : list (string * V) :=
  fold_left (fun d kv => dict_set (fst kv) (snd kv) d) ps [].

Definition keys {V : Type} (d : list (string * V)) : list string := map fst d.

Inductive pyval : Type :=
| PNone
| PBool (b : bool)
| PInt (z : Z)
| PFloat (f : float)
| PStr (s : string)
| PList (items : list pyval)
| PTuple (items : list pyval)
| PDict (entries : list (string * pyval)).

Definition dict := list (string * pyval).

(** Truth value of an object ([bool(v)], what [not v] negates). *)
Definition truthy (v : pyval) : bool :=
  match v with
  | PNone => false
  | PBool b => b
  | PInt z => negb (z =? 0)%Z
  | PFloat f => negb (PrimFloat.eqb f 0%float)
  | PStr s => negb (String.eqb s "")
  | PList items | PTuple items => negb (Nat.eqb (length items) 0)
  | PDict entries => negb (Nat.eqb (length entries) 0)
  end.

(** [float == int], decided exactly on the value of the float. *)
Definition float_eq_int (f : float) (z : Z) : bool :=
  match Prim2SF f with
  | S754_zero _ => (z =? 0)%Z
  | S754_finite s m e =>
      let v := if s then Z.neg m else Z.pos m in
      if (0 <=? e)%Z then (z =? v * 2 ^ e)%Z else (z * 2 ^ (- e) =? v)%Z
  | S754_infinity _ | S754_nan => false
  end.

Definition Z_of_bool (b : bool) : Z := if b then 1%Z else 0%Z.

(** Python's [==].  Booleans are the integers 0 and 1; a list never equals a
    tuple; dictionaries are compared as maps, whatever the order of their
    entries. *)
Fixpoint py_eq (x y : pyval) {struct x} : bool :=
  match x, y with
  | PNone, PNone => true
  | PBool a, PBool b => Bool.eqb a b
  | PBool a, PInt z | PInt z, PBool a => (Z_of_bool a =? z)%Z
  | PBool a, PFloat f | PFloat f, PBool a => float_eq_int f (Z_of_bool a)
  | PInt a, PInt b => (a =? b)%Z
  | PInt z, PFloat f | PFloat f, PInt z => float_eq_int f z
  | PFloat a, PFloat b => PrimFloat.eqb a b
  | PStr a, PStr b => String.eqb a b
  | PList xs, PList ys | PTuple xs, PTuple ys =>
      (fix all2 (xs ys : list pyval) {struct xs} : bool :=
         match xs, ys with
         | [], [] => true
         | a :: xs', b :: ys' => py_eq a b && all2 xs' ys'
         | _, _ => false
         end) xs ys
  | PDict dx, PDict dy =>
      Nat.eqb (length dx) (length dy) &&
      (fix all (dx : list (string * pyval)) {struct dx} : bool :=
         match dx with
         | [] => true
         | (k, v) :: rest =>
             match dict_get k dy with
             | Some w => py_eq v w
             | None => false
             end && all rest
         end) dx
  | _, _ => false
  end.

(* ================================================================= *)
(** ** Exceptions *)

(** The exceptions that the code of the model, and the library calls it
    makes, can raise.  [JSONDecodeError] is a subclass of [ValueError]. *)
Inductive exn : Type :=
| ValueError (message : string)
| JSONDecodeError
| TypeError
| KeyError
| IndexError
| AttributeError (name : string)
| RequestException.

Definition is_ValueError (e : exn) : bool :=
  match e with
  | ValueError _ | JSONDecodeError => true
  | _ => false
  end.

Inductive result (A : Type) : Type :=
| Ok (a : A)
| Raise (e : exn).
Arguments Ok {A} a.
Arguments Raise {A} e.

(* ================================================================= *)
(** ** The json library *)

Inductive json : Type :=
| JNull
| JBool (b : bool)
| JInt (z : Z)
| JFloat (f : float)
| JStr (s : string)
| JArr (items : list json)
| JObj (members : list (string * json)).

(** A text handed to [json.loads]: the document it spells, if any. *)
Inductive text : Type :=
| JsonText (doc : json)
| BadText.

(** The encoder's conversion table: lists and tuples both become arrays. *)
Fixpoint json_of_py (v : pyval) : json :=
  match v with
  | PNone => JNull
  | PBool b => JBool b
  | PInt z => JInt z
  | PFloat f => JFloat f
  | PStr s => JStr s
  | PList items | PTuple items => JArr (map json_of_py items)
  | PDict entries => JObj (map (fun kv => (fst kv, json_of_py (snd kv))) entries)
  end.

(** The decoder's conversion table: an array becomes a list, an object a
    dict built member by member. *)
Fixpoint py_of_json (j : json) : pyval :=
  match j with
  | JNull => PNone
  | JBool b => PBool b
  | JInt z => PInt z
  | JFloat f => PFloat f
  | JStr s => PStr s
  | JArr items => PList (map py_of_json items)
  | JObj members =>
      PDict (dict_of_pairs (map (fun kj => (fst kj, py_of_json (snd kj))) members))
  end.

Definition json_dumps (v : pyval) : text := JsonText (json_of_py v).

Definition json_loads (s : text) : result pyval :=
  match s with
  | JsonText doc => Ok (py_of_json doc)
  | BadText => Raise JSONDecodeError
  end.

(* ================================================================= *)
(** ** Subscription *)

(** [v[key]] with a string key. *)
Definition getitem_key (v : pyval) (key : string) : result pyval :=
  match v with
  | PDict entries =>
      match dict_get key entries with
      | Some w => Ok w
      | None => Raise KeyError
      end
  | _ => Raise TypeError
  end.

(** The one-character string at position [i] of [s]. *)
Fixpoint char_at (s : string) (i : nat) : option string :=
  match s, i with
  | EmptyString, _ => None
  | String c _, O => Some (String c EmptyString)
  | String _ rest, S i' => char_at rest i'
  end.

(** [v[i]] with a non-negative integer index.  The keys of the dicts of
    this model are strings, so an integer is never among them. *)
Definition getitem_index (v : pyval) (i : nat) : result pyval :=
  match v with
  | PList items | PTuple items =>
      match nth_error items i with
      | Some w => Ok w
      | None => Raise IndexError
      end
  | PStr s =>
      match char_at s i with
      | Some c => Ok (PStr c)
      | None => Raise IndexError
      end
  | PDict _ => Raise KeyError
  | _ => Raise TypeError
  end.

(* ================================================================= *)
(** ** Methods: state, exceptions and the outside world *)

(** What [requests.get] returns, as far as the code looks at it:
    [response.status_code] and the body that [response.json()] decodes. *)
Record response : Type := mkResponse {
  status_code : Z;
  content : text
}.

(** The environment of a run: the constant [MAPBOX_API_KEY] of the module
    [secrets], and the network, which answers a GET request for a URL with a
    response or raises. *)
Record env : Type := mkEnv {
  MAPBOX_API_KEY : string;
  requests_get : string -> result response
}.

(** A method body run on an instance of state [S]: it reads the
    environment, may change the instance, and ends with a value or an
    exception.  The trace lists the URLs requested, oldest first. *)
Record outcome (S A : Type) : Type := mkOutcome {
  value : result A;
  self_after : S;
  trace : list string
}.
Arguments mkOutcome {S A} value self_after trace.
Arguments value {S A} o.
Arguments self_after {S A} o.
Arguments trace {S A} o.

Definition method (S A : Type) : Type := env -> S -> outcome S A.

Definition ret {S A : Type} (a : A) : method S A :=
  fun _ self => mkOutcome (Ok a) self [].

Definition raise {S A : Type} (e : exn) : method S A :=
  fun _ self => mkOutcome (Raise e) self [].

Definition bind {S A B : Type} (m : method S A) (k : A -> method S B)
  : method S B :=
  fun w self =>
    let o := m w self in
    match value o with
    | Ok a =>
        let o' := k a w (self_after o) in
        mkOutcome (value o') (self_after o') (trace o ++ trace o')%list
    | Raise e => mkOutcome (Raise e) (self_after o) (trace o)
    end.

Declare Scope method_scope.
Delimit Scope method_scope with method.
Notation "x <- m ;; k" := (bind m (fun x => k))
  (at level 61, m at next level, right associativity) : method_scope.
Notation "m ;;; k" := (bind m (fun _ => k))
  (at level 61, right associativity) : method_scope.
Local Open Scope method_scope.

(** The value or exception of an expression without effects. *)
Definition lift {S A : Type} (r : result A) : method S A :=
  fun _ self => mkOutcome r self [].

Definition get_self {S : Type} : method S S :=
  fun _ self => mkOutcome (Ok self) self [].

Definition put_self {S : Type} (self' : S) : method S unit :=
  fun _ _ => mkOutcome (Ok tt) self' [].

Definition get_api_key {S : Type} : method S string :=
  fun w self => mkOutcome (Ok (MAPBOX_API_KEY w)) self [].

(** [requests.get(url)]. *)
Definition http_get {S : Type} (url : string) : method S response :=
  fun w self => mkOutcome (requests_get w url) self [url].

(* ================================================================= *)
(** ** class State(Enum) *)

Module State.

Inductive t : Type := NY.

Definition name (s : t) : string :=
  match s with NY => "NY" end.

Definition value (s : t) : string :=
  match s with NY => "New York" end.

(** [State.__members__]: the members by name, in the order of definition. *)
Definition __members__ : list (string * t) := [("NY", NY)].

Definition __str__ (self : t) : string := name self.

(** [state in State.__members__] *)
Definition isValid (state : string) : bool :=
  match dict_get state __members__ with
  | Some _ => true
  | None => false
  end.

End State.

(* ================================================================= *)
(** ** class Address *)

(** An instance as the dataclass declares it.  A field holds a value of its
    annotated type or [None]; [coordinates] is the attribute that
    [__post_init__] adds, absent until then. *)
Record Address : Type := mkAddress {
  street1 : option string;
  street2 : option string;
  city : option string;
  state : option string;
  zip : option Z;
  coordinates : option (pyval * pyval)
}.

Definition py_of_str (o : option string) : pyval :=
  match o with Some s => PStr s | None => PNone end.

Definition py_of_int (o : option Z) : pyval :=
  match o with Some z => PInt z | None => PNone end.

(** [self.__dict__], the attributes in the order they were assigned. *)
Definition __dict__ (self : Address) : dict :=
  ([ ("street1", py_of_str (street1 self));
     ("street2", py_of_str (street2 self));
     ("city", py_of_str (city self));
     ("state", py_of_str (state self));
     ("zip", py_of_int (zip self)) ]
   ++ match coordinates self with
      | Some (lat, lon) => [("coordinates", PTuple [lat; lon])]
      | None => []
      end)%list.

(** [getattr(self, name)] *)
Definition getattr (name : string) : method Address pyval :=
  self <- get_self ;;
  match dict_get name (__dict__ self) with
  | Some v => ret v
  | None => raise (AttributeError name)
  end.

(** [str(n)] for an integer. *)
Definition str_of_int (z : Z) : string := NilZero.string_of_int (Z.to_int z).

(** What an f-string writes for a field. *)
Definition format_str (o : option string) : string :=
  match o with Some s => s | None => "None" end.

Definition format_int (o : option Z) : string :=
  match o with Some z => str_of_int z | None => "None" end.

Definition __str__ (self : Address) : string :=
  format_str (street1 self)
  ++ (if truthy (py_of_str (street2 self))
      then ", " ++ format_str (street2 self) else "")
  ++ ", " ++ format_str (city self)
  ++ ", " ++ format_str (state self)
  ++ " " ++ format_int (zip self) ++ ".".

(** The two f-strings of [__get_coordinates]: the search text and the URL
    of the request. *)
Definition search_text (self : Address) : string :=
  format_str (street1 self) ++ ", " ++ format_str (city self) ++ ", "
  ++ format_str (state self) ++ " " ++ format_int (zip self).

Definition geocoding_url (key : string) (self : Address) : string :=
  let endpoint := "mapbox.places" in
  "https://api.mapbox.com/geocoding/v5/" ++ endpoint ++ "/" ++ search_text self
  ++ ".json?access_token=" ++ key.

Definition __get_coordinates : method Address (pyval * pyval) :=
  self <- get_self ;;
  key <- get_api_key ;;
  let url := geocoding_url key self in
  (* Make the request *)
  response <- http_get url ;;
  (* Check if the request was successful *)
  if negb (status_code response =? 200)%Z
  then raise (ValueError ("Could not get coordinates for " ++ __str__ self ++ "."))
  else
    (* Get the coordinates *)
    payload <- lift (json_loads (content response)) ;;
    features <- lift (getitem_key payload "features") ;;
    feature <- lift (getitem_index features 0) ;;
    coordinates <- lift (getitem_key feature "center") ;;
    c1 <- lift (getitem_index coordinates 1) ;;
    c0 <- lift (getitem_index coordinates 0) ;;
    ret (c1, c0).

(** The loop [for field in [...]: if not getattr(self, field): raise ...]. *)
Fixpoint check_not_empty (fields : list string) : method Address unit :=
  match fields with
  | [] => ret tt
  | field :: rest =>
      v <- getattr field ;;
      if negb (truthy v)
      then raise (ValueError (field ++ " cannot be empty."))
      else check_not_empty rest
  end.

(** [State.isValid(self.state)]; [None] is no key of [State.__members__]. *)
Definition state_isValid (o : option string) : bool :=
  match o with Some s => State.isValid s | None => false end.

Definition set_coordinates (c : pyval * pyval) : method Address unit :=
  self <- get_self ;;
  put_self (mkAddress (street1 self) (street2 self) (city self) (state self)
                      (zip self) (Some c)).

Definition __post_init__ : method Address unit :=
  (* Check if the inputs are valid *)
  check_not_empty ["street1"; "city"; "state"; "zip"] ;;;
  (* Check if the state is valid *)
  self <- get_self ;;
  if negb (state_isValid (state self))
  then raise (ValueError (format_str (state self) ++ " is not a valid state."))
  else
    (* Get the coordinates *)
    c <- __get_coordinates ;;
    set_coordinates c.

(** The call [Address(street1, street2, city, state, zip)]: the generated
    [__init__] assigns the five fields and runs [__post_init__].  The caller
    gets the instance only when no exception was raised. *)
Record construction : Type := mkConstruction {
  constructed : result Address;
  requested : list string
}.

Definition new_Address (w : env)
  (street1 street2 city state : option string) (zip : option Z) : construction :=
  let o := __post_init__ w (mkAddress street1 street2 city state zip None) in
  mkConstruction
    (match value o with Ok _ => Ok (self_after o) | Raise e => Raise e end)
    (trace o).

(** [serialize] and [deserialize] read and assign [self.__dict__] as a
    whole; their instance is its attribute dictionary. *)
Definition serialize : method dict text :=
  d <- get_self ;;
  ret (json_dumps (PDict d)).

(** [self.__dict__ = v] takes a dict and nothing else. *)
Definition set___dict__ (v : pyval) : method dict unit :=
  match v with
  | PDict entries => put_self entries
  | _ => raise TypeError
  end.

Definition deserialize (json_str : text) : method dict unit :=
  v <- lift (json_loads json_str) ;;
  set___dict__ v.

(* ================================================================= *)
(** ** Words of the specification *)

(** A text field is empty when it is absent ([None]) or the empty string;
    the number is empty when it is absent or zero. *)
Definition empty_text (o : option string) : Prop := o = None \/ o = Some "".
Definition empty_number (o : option Z) : Prop := o = None \/ o = Some 0%Z.

(** The outcome of a construction that is refused before any request. *)
Definition refused (message : string) : construction :=
  mkConstruction (Raise (ValueError message)) [].

(** The street2 segment of the display string. *)
Definition street2_segment (o : option string) : string :=
  match o with
  | None => ""
  | Some "" => ""
  | Some s => ", " ++ s
  end.

Definition and_then {A B : Type} (r : result A) (k : A -> result B) : result B :=
  match r with
  | Ok a => k a
  | Raise e => Raise e
  end.

(** What the last lines of [__get_coordinates] make of a body. *)
Definition read_center (body : text) : result (pyval * pyval) :=
  and_then (json_loads body) (fun payload =>
  and_then (getitem_key payload "features") (fun features =>
  and_then (getitem_index features 0) (fun feature =>
  and_then (getitem_key feature "center") (fun coordinates =>
  and_then (getitem_index coordinates 1) (fun c1 =>
  and_then (getitem_index coordinates 0) (fun c0 =>
  Ok (c1, c0))))))).

(** The whole lookup for an instance: request, status check, decoding. *)
Definition geocode (w : env) (self : Address) : result (pyval * pyval) :=
  and_then (requests_get w (geocoding_url (MAPBOX_API_KEY w) self))
    (fun response =>
       if negb (status_code response =? 200)%Z
       then Raise (ValueError
                     ("Could not get coordinates for " ++ __str__ self ++ "."))
       else read_center (content response)).

(** A value that the JSON decoder can return. *)
Definition decoded (v : pyval) : Prop := exists j : json, v = py_of_json j.

Definition is_object (j : json) : bool :=
  match j with JObj _ => true | _ => false end.

(** [getattr(a, field) == getattr(b, field)] for two instances given by
    their attribute dictionaries; false when either has no such attribute. *)
Definition same_field (field : string) (d d' : dict) : bool :=
  match dict_get field d, dict_get field d' with
  | Some v, Some v' => py_eq v v'
  | _, _ => false
  end.

(** The names of the fields that the dataclass declares. *)
Definition declared_fields : list string :=
  ["street1"; "street2"; "city"; "state"; "zip"].

(** Sample data: the address of the specification's examples, and three
    networks. *)
Module Sample.

Set Warnings "-inexact-float".

(** [{"features": [{"center": [-74.0, 40.7]}]}] *)
Definition doc_found : json :=
  JObj [("features",
    JArr [JObj [("center", JArr [JFloat (-74.0)%float; JFloat 40.7%float])]])].

Definition body_found : text := JsonText doc_found.

(** [{"features": []}] *)
Definition body_no_features : text :=
  JsonText (JObj [("features", JArr [])]).

Definition net_found : env :=
  mkEnv "pk.sample" (fun _ => Ok (mkResponse 200 body_found)).

Definition net_not_found : env :=
  mkEnv "pk.sample" (fun _ => Ok (mkResponse 404 BadText)).

Definition net_no_features : env :=
  mkEnv "pk.sample" (fun _ => Ok (mkResponse 200 body_no_features)).

Definition lat : pyval := PFloat 40.7%float.
Definition lon : pyval := PFloat (-74.0)%float.

(** [{"street1": "", "state": "ZZ"}] *)
Definition body_invalid : text :=
  JsonText (JObj [("street1", JStr ""); ("state", JStr "ZZ")]).

Definition troy (street2 : option string) (xy : option (pyval * pyval)) : Address :=
  mkAddress (Some "123 Main St") street2 (Some "Troy") (Some "NY")
            (Some 12180%Z) xy.

Set Warnings "inexact-float".

End Sample.

(* ================================================================= *)
(** ** Further words: validated arguments, the generated comparison *)

(** The arguments that pass the checks of [__post_init__]: the required
    fields are filled in and the state is the name of a member of the
    registry. *)
Definition validated (s1 c st : option string) (z : option Z) : Prop :=
  ~ empty_text s1 /\ ~ empty_text c /\ ~ empty_number z
  /\ exists code : string, st = Some code /\ In code (keys State.__members__).

(** The network answers the request of a construction with the response
    [r], of status 200. *)
Definition answered_200 (w : env) (s1 s2 c st : option string) (z : option Z)
  (r : response) : Prop :=
  requests_get w (geocoding_url (MAPBOX_API_KEY w) (mkAddress s1 s2 c st z None))
  = Ok r
  /\ status_code r = 200%Z.

(** The construction makes its request and fails with the exception [e]. *)
Definition fails_after_request (w : env) (s1 s2 c st : option string)
  (z : option Z) (e : exn) : Prop :=
  new_Address w s1 s2 c st z
  = mkConstruction (Raise e)
      [geocoding_url (MAPBOX_API_KEY w) (mkAddress s1 s2 c st z None)].

(** The construction makes its request and returns the instance with the
    coordinates [xy]. *)
Definition succeeds_with (w : env) (s1 s2 c st : option string)
  (z : option Z) (xy : pyval * pyval) : Prop :=
  new_Address w s1 s2 c st z
  = mkConstruction (Ok (mkAddress s1 s2 c st z (Some xy)))
      [geocoding_url (MAPBOX_API_KEY w) (mkAddress s1 s2 c st z None)].

(** A network that answers every request with status 200 and the given
    body. *)
Definition net_answering (body : text) : env :=
  mkEnv "pk.sample" (fun _ => Ok (mkResponse 200 body)).

(** [{"features": [{"center": [1.0]}]}] and [{"features": [{"center": "ab"}]}] *)
Definition doc_short_center : json :=
  JObj [("features", JArr [JObj [("center", JArr [JFloat 1])]])].

Definition doc_text_center : json :=
  JObj [("features", JArr [JObj [("center", JStr "ab")]])].

(** The integers that [str] and an f-string write: those of at most 4300
    digits, the default of [sys.set_int_max_str_digits]. *)
Definition int_max_str_digits : Z := 4300%Z.

Definition printable (z : Z) : Prop := (Z.abs z < 10 ^ int_max_str_digits)%Z.

Definition is_dict (v : pyval) : bool :=
  match v with PDict _ => true | _ => false end.

(** A value that is equal to itself: every value but a NaN and what holds
    one.  For such a key, a dict finds by [==] what it finds at all. *)
Definition self_equal (v : pyval) : Prop := py_eq v v = true.



(* ================================================================= *)
(** ** src/app.py: the handlers [pickup] and [chat] *)

(** [len(v)] *)
Definition py_len (v : pyval) : result nat :=
  match v with
  | PStr s => Ok (String.length s)
  | PList items | PTuple items => Ok (length items)
  | PDict entries => Ok (length entries)
  | _ => Raise TypeError
  end.

(** [list(v.keys())]: only a dict has the method. *)
Definition py_keys (v : pyval) : result (list string) :=
  match v with
  | PDict entries => Ok (keys entries)
  | _ => Raise (AttributeError "keys")
  end.

(** [names[0]] *)
Definition first_name (names : list string) : result string :=
  match names with
  | name :: _ => Ok name
  | [] => Raise IndexError
  end.

(** What a handler returns: [jsonify({"success": True})], with the prompt
    when there is one, or [jsonify({"success": False, "error": str(e)})],
    given here by the exception [e] whose text it carries. *)
Inductive reply : Type :=
| Succeeded (prompt : option string)
| Failed (e : exn).

(** [Address.load]: the class of address.py has the methods
    [__post_init__], [__str__], [__get_coordinates], [serialize] and
    [deserialize] and what [@dataclass] adds, and no attribute [load]; the
    lookup of the attribute raises, whatever the argument would be. *)
Definition Address_load (v : pyval) : result Address :=
  Raise (AttributeError "load").

Section Pickup.

(** The classes [Store] and the loader of addresses come from modules that
    are no part of these sources: the loader answers with an address or
    raises, [add_pickup_location] answers and may change the store. *)
Variables (address store : Type).
Variable load : pyval -> result address.
Variable add_pickup_location : store -> string -> address -> result unit * store.

(** The [try] block of [pickup] up to the call of the store; [request_data]
    is [request.data.decode("utf-8")], a text or the exception of the
    decoding. *)
Definition pickup_read (request_data : result text) : result (string * address) :=
  and_then request_data (fun body =>
  (* Read the address details from the request *)
  and_then (json_loads body) (fun data =>
  (* Validate format {<name string>: <serialized address object>} *)
  and_then (py_len data) (fun n =>
  if negb (Nat.eqb n 1) then Raise (ValueError "Invalid format.") else
  (* Get the name and address *)
  and_then (py_keys data) (fun names =>
  and_then (first_name names) (fun name =>
  and_then (getitem_key data name) (fun v =>
  and_then (load v) (fun a =>
  Ok (name, a)))))))).

Definition pickup (request_data : result text) (st : store) : reply * store :=
  match pickup_read request_data with
  | Raise e => (Failed e, st)
  | Ok (name, a) =>
      (* Add the address to the store *)
      let (r, st') := add_pickup_location st name a in
      match r with
      | Ok _ => (Succeeded None, st')
      | Raise e => (Failed e, st')
      end
  end.

End Pickup.

Arguments pickup_read {address} load request_data.
Arguments pickup {address store} load add_pickup_location request_data st.

(** Whether [hash(v)] is defined. *)
Fixpoint hashable (v : pyval) : bool :=
  match v with
  | PList _ | PDict _ => false
  | PTuple items =>
      (fix all (items : list pyval) : bool :=
         match items with
         | [] => true
         | x :: rest => hashable x && all rest
         end) items
  | _ => true
  end.

(** [l[i] = x] for an index within the list. *)
Fixpoint set_nth {A : Type} (i : nat) (x : A) (l : list A) : list A :=
  match l, i with
  | [], _ => []
  | _ :: rest, O => x :: rest
  | y :: rest, S i' => y :: set_nth i' x rest
  end.

Section Chat.

(** The class [ChatBot] comes from a module that is no part of these
    sources: [ChatBot()] gives a bot or raises, and [getResponse] answers a
    query with the text [str(response)] or an exception, and may change the
    bot. *)
Variable bot : Type.
Variable ChatBot : result bot.
Variable getResponse : bot -> pyval -> result string * bot.

(** The dict [chats]: the bots by the id of their conversation, in the
    order in which the conversations began. *)
Definition sessions : Type := list (pyval * bot).

(** The position of the key equal to [id], if there is one. *)
Fixpoint find_session (id : pyval) (chats : sessions) : option nat :=
  match chats with
  | [] => None
  | (k, _) :: rest =>
      if py_eq k id then Some O
      else match find_session id rest with
           | Some i => Some (S i)
           | None => None
           end
  end.

(** The [try] block of [chat] up to [id = data["id"]] and the hashing of
    the id by [id not in chats]; [request_json] is [request.json], the
    decoded body or the exception of the decoding. *)
Definition chat_read (request_json : result pyval) : result (pyval * pyval) :=
  and_then request_json (fun data =>
  and_then (py_len data) (fun n =>
  if negb (Nat.eqb n 2) then Raise (ValueError "Invalid format.") else
  and_then (getitem_key data "id") (fun id =>
  if hashable id then Ok (data, id) else Raise TypeError))).

(** [if id not in chats: chats[id] = ChatBot()]: the position of the
    conversation of [id] and the dict afterwards. *)
Definition open_session (id : pyval) (chats : sessions) : result (nat * sessions) :=
  match find_session id chats with
  | Some i => Ok (i, chats)
  | None => and_then ChatBot (fun b => Ok (length chats, (chats ++ [(id, b)])%list))
  end.

(** The printing of the query and of the exception is left out. *)
Definition chat (request_json : result pyval) (chats : sessions)
  : reply * sessions :=
  match chat_read request_json with
  | Raise e => (Failed e, chats)
  | Ok (data, id) =>
      match open_session id chats with
      | Raise e => (Failed e, chats)
      | Ok (i, chats1) =>
          match getitem_key data "query" with
          | Raise e => (Failed e, chats1)
          | Ok query =>
              match nth_error chats1 i with
              | Some (k, b) =>
                  let (r, b') := getResponse b query in
                  (match r with
                   | Ok prompt => Succeeded (Some prompt)
                   | Raise e => Failed e
                   end,
                   set_nth i (k, b') chats1)
              | None => (Failed KeyError, chats1)
              end
          end
      end
  end.

End Chat.

Arguments find_session {bot} id chats.
Arguments open_session {bot} ChatBot id chats.
Arguments chat {bot} ChatBot getResponse request_json chats.

(* ================================================================= *)
(** ** Truth values of the fields *)

Lemma truthy_text (o : option string) :
  truthy (py_of_str o) = false <-> empty_text o.
Proof.
  unfold empty_text; destruct o as [s|]; simpl.
  - destruct s; simpl; split; intros H; try discriminate; auto.
    destruct H as [H|H]; discriminate.
  - split; auto.
Qed.

Lemma truthy_number (o : option Z) :
  truthy (py_of_int o) = false <-> empty_number o.
Proof.
  unfold empty_number; destruct o as [z|]; simpl.
  - rewrite negb_false_iff, Z.eqb_eq. split.
    + intros ->; auto.
    + intros [H|H]; congruence.
  - split; auto.
Qed.

Lemma truthy_text_true (o : option string) :
  ~ empty_text o -> truthy (py_of_str o) = true.
Proof.
  intros H. destruct (truthy (py_of_str o)) eqn:E; [reflexivity|].
  apply truthy_text in E. contradiction.
Qed.

Lemma truthy_number_true (o : option Z) :
  ~ empty_number o -> truthy (py_of_int o) = true.
Proof.
  intros H. destruct (truthy (py_of_int o)) eqn:E; [reflexivity|].
  apply truthy_number in E. contradiction.
Qed.

Lemma not_empty_text (s : string) : s <> "" -> ~ empty_text (Some s).
Proof. intros H [E|E]; congruence. Qed.

Lemma not_empty_number (z : Z) : z <> 0%Z -> ~ empty_number (Some z).
Proof. intros H [E|E]; congruence. Qed.

(* ================================================================= *)
(** ** The geocoding lookup, step by step *)

(** [__get_coordinates] sends one request, leaves the instance as it is,
    and answers by the status and the body of the response. *)
Lemma get_coordinates_unfold (w : env) (self : Address) :
  __get_coordinates w self
  = mkOutcome (geocode w self) self [geocoding_url (MAPBOX_API_KEY w) self].
Proof.
  unfold __get_coordinates, geocode, bind, get_self, get_api_key, http_get,
    raise, lift, ret, read_center; cbn [value self_after trace app].
  destruct (requests_get w _) as [r|e]; cbn [and_then]; [|reflexivity].
  destruct (negb (status_code r =? 200)%Z); cbn [value self_after trace];
    [reflexivity|].
  destruct (json_loads (content r)) as [payload|e]; cbn [and_then]; [|reflexivity].
  destruct (getitem_key payload "features") as [features|e]; cbn [and_then];
    [|reflexivity].
  destruct (getitem_index features 0) as [feature|e]; cbn [and_then];
    [|reflexivity].
  destruct (getitem_key feature "center") as [coordinates|e]; cbn [and_then];
    [|reflexivity].
  destruct (getitem_index coordinates 1) as [c1|e]; cbn [and_then];
    [|reflexivity].
  destruct (getitem_index coordinates 0) as [c0|e]; cbn [and_then]; reflexivity.
Qed.

(* ================================================================= *)
(** ** The validation loop *)

Section Validation.

Variable w : env.
Variables (s1 s2 c st : option string) (z : option Z).

Let self := mkAddress s1 s2 c st z None.

Lemma check_fails_street1 :
  empty_text s1 ->
  check_not_empty ["street1"; "city"; "state"; "zip"] w self
  = mkOutcome (Raise (ValueError "street1 cannot be empty.")) self [].
Proof.
  intros H%truthy_text. cbn. rewrite H. reflexivity.
Qed.

Lemma check_fails_city :
  ~ empty_text s1 -> empty_text c ->
  check_not_empty ["street1"; "city"; "state"; "zip"] w self
  = mkOutcome (Raise (ValueError "city cannot be empty.")) self [].
Proof.
  intros H1%truthy_text_true H%truthy_text. cbn. rewrite H1. cbn.
  rewrite H. reflexivity.
Qed.

Lemma check_fails_state :
  ~ empty_text s1 -> ~ empty_text c -> empty_text st ->
  check_not_empty ["street1"; "city"; "state"; "zip"] w self
  = mkOutcome (Raise (ValueError "state cannot be empty.")) self [].
Proof.
  intros H1%truthy_text_true H2%truthy_text_true H%truthy_text. cbn.
  rewrite H1. cbn. rewrite H2. cbn. rewrite H. reflexivity.
Qed.

Lemma check_fails_zip :
  ~ empty_text s1 -> ~ empty_text c -> ~ empty_text st -> empty_number z ->
  check_not_empty ["street1"; "city"; "state"; "zip"] w self
  = mkOutcome (Raise (ValueError "zip cannot be empty.")) self [].
Proof.
  intros H1%truthy_text_true H2%truthy_text_true H3%truthy_text_true
         H%truthy_number. cbn.
  rewrite H1. cbn. rewrite H2. cbn. rewrite H3. cbn. rewrite H. reflexivity.
Qed.

Lemma check_passes :
  ~ empty_text s1 -> ~ empty_text c -> ~ empty_text st -> ~ empty_number z ->
  check_not_empty ["street1"; "city"; "state"; "zip"] w self
  = mkOutcome (Ok tt) self [].
Proof.
  intros H1%truthy_text_true H2%truthy_text_true H3%truthy_text_true
         H4%truthy_number_true. cbn.
  rewrite H1. cbn. rewrite H2. cbn. rewrite H3. cbn. rewrite H4. reflexivity.
Qed.

(** A failed check ends [__post_init__], and the construction, at once. *)
Lemma refused_by_check (message : string) :
  check_not_empty ["street1"; "city"; "state"; "zip"] w self
  = mkOutcome (Raise (ValueError message)) self [] ->
  new_Address w s1 s2 c st z = refused message.
Proof.
  intros H. unfold new_Address, __post_init__, bind. fold self.
  rewrite H. reflexivity.
Qed.

(** After the checks, [__post_init__] goes on with the state and the
    coordinates. *)
Lemma post_init_after_checks :
  ~ empty_text s1 -> ~ empty_text c -> ~ empty_text st -> ~ empty_number z ->
  __post_init__ w self
  = if negb (state_isValid st)
    then mkOutcome (Raise (ValueError (format_str st ++ " is not a valid state.")))
                   self []
    else
      let o := __get_coordinates w self in
      match value o with
      | Ok xy => mkOutcome (Ok tt) (mkAddress s1 s2 c st z (Some xy)) (trace o)
      | Raise e => mkOutcome (Raise e) self (trace o)
      end.
Proof.
  intros H1 H2 H3 H4.
  unfold __post_init__, bind. fold self.
  rewrite (check_passes H1 H2 H3 H4).
  cbn [value self_after trace get_self app]. change (state self) with st.
  destruct (state_isValid st); cbn [negb]; [|reflexivity].
  cbv zeta. rewrite get_coordinates_unfold. cbn [value self_after trace].
  destruct (geocode w self) as [xy|e]; reflexivity.
Qed.

End Validation.


(* ================================================================= *)
(** ** Construction *)

Lemma empty_text_dec (o : option string) : {empty_text o} + {~ empty_text o}.
Proof.
  destruct (truthy (py_of_str o)) eqn:E.
  - right. intros H%truthy_text. congruence.
  - left. now apply truthy_text.
Qed.

Lemma empty_number_dec (o : option Z) : {empty_number o} + {~ empty_number o}.
Proof.
  destruct (truthy (py_of_int o)) eqn:E.
  - right. intros H%truthy_number. congruence.
  - left. now apply truthy_number.
Qed.

(** A construction whose checks pass: the state is looked up in the
    registry, and then one request decides. *)
Lemma new_Address_after_checks (w : env) (s1 s2 c st : option string)
  (z : option Z) :
  ~ empty_text s1 -> ~ empty_text c -> ~ empty_text st -> ~ empty_number z ->
  new_Address w s1 s2 c st z
  = let self := mkAddress s1 s2 c st z None in
    if negb (state_isValid st)
    then refused (format_str st ++ " is not a valid state.")
    else mkConstruction
           match geocode w self with
           | Ok xy => Ok (mkAddress s1 s2 c st z (Some xy))
           | Raise e => Raise e
           end
           [geocoding_url (MAPBOX_API_KEY w) self].
Proof.
  intros H1 H2 H3 H4. unfold new_Address.
  rewrite (post_init_after_checks w s1 s2 c st z H1 H2 H3 H4). cbv zeta.
  destruct (state_isValid st); cbn [negb]; [|reflexivity].
  rewrite get_coordinates_unfold. cbn [value self_after trace].
  destruct (geocode w _); reflexivity.
Qed.

(** What a successful construction tells about its arguments. *)
Lemma new_Address_success (w : env) (s1 s2 c st : option string)
  (z : option Z) (a : Address) :
  constructed (new_Address w s1 s2 c st z) = Ok a ->
  ~ empty_text s1 /\ ~ empty_text c /\ ~ empty_text st /\ ~ empty_number z
  /\ state_isValid st = true
  /\ exists xy, geocode w (mkAddress s1 s2 c st z None) = Ok xy
                /\ a = mkAddress s1 s2 c st z (Some xy).
Proof.
  intros H.
  destruct (empty_text_dec s1) as [E1|N1].
  { rewrite (refused_by_check w s1 s2 c st z _ (check_fails_street1 w s1 s2 c st z E1)) in H.
    discriminate. }
  destruct (empty_text_dec c) as [E2|N2].
  { rewrite (refused_by_check w s1 s2 c st z _ (check_fails_city w s1 s2 c st z N1 E2)) in H.
    discriminate. }
  destruct (empty_text_dec st) as [E3|N3].
  { rewrite (refused_by_check w s1 s2 c st z _ (check_fails_state w s1 s2 c st z N1 N2 E3)) in H.
    discriminate. }
  destruct (empty_number_dec z) as [E4|N4].
  { rewrite (refused_by_check w s1 s2 c st z _ (check_fails_zip w s1 s2 c st z N1 N2 N3 E4)) in H.
    discriminate. }
  rewrite (new_Address_after_checks w s1 s2 c st z N1 N2 N3 N4) in H. cbv zeta in H.
  destruct (state_isValid st); cbn [negb] in H; [|discriminate].
  cbn [constructed] in H.
  destruct (geocode w _) as [xy|e]; [|discriminate].
  injection H as <-. repeat split; auto. now exists xy.
Qed.

Lemma present_text (o : option string) :
  ~ empty_text o -> exists s, o = Some s /\ s <> "".
Proof.
  unfold empty_text. destruct o as [s|]; intros H.
  - exists s. split; [reflexivity|]. intros ->. auto.
  - exfalso; auto.
Qed.

Lemma present_number (o : option Z) :
  ~ empty_number o -> exists z, o = Some z /\ z <> 0%Z.
Proof.
  unfold empty_number. destruct o as [z|]; intros H.
  - exists z. split; [reflexivity|]. intros ->. auto.
  - exfalso; auto.
Qed.

(* ================================================================= *)
(** ** The registry of states *)

Lemma isValid_NY (code : string) : State.isValid code = true <-> code = "NY".
Proof.
  unfold State.isValid, State.__members__; cbn [dict_get].
  destruct (String.eqb_spec code "NY") as [->|N]; split; auto; discriminate.
Qed.

(** C9.  [State.isValid] is a function of its argument alone, defined on
    every text, and it answers true exactly for the names of the registry's
    members, compared as they are written: true for "NY", false for "CA". *)
Theorem isValid_registry_membership :
  (forall code : string,
      State.isValid code = true <-> In code (keys State.__members__))
  /\ (forall code : string, State.isValid code = true \/ State.isValid code = false)
  /\ keys State.__members__ = ["NY"]
  /\ State.isValid "NY" = true
  /\ State.isValid "CA" = false
  /\ State.isValid "ny" = false
  /\ State.isValid "New York" = false.
Proof.
  split; [|split; [|repeat split]].
  - intros code. rewrite isValid_NY. cbn. split.
    + intros ->. now left.
    + intros [H|[]]. now symmetry.
  - intros code. destruct (State.isValid code); auto.
Qed.

(* ================================================================= *)
(** ** Validation of the arguments *)

(** C3.  An empty, zero or absent required field refuses the construction
    with the [ValueError] that names the first such field in the order
    street1, city, state, zip (the message of the code ends with a full
    stop), and no request is made. *)
Theorem required_fields_checked_in_order (w : env)
  (s1 s2 c st : option string) (z : option Z) :
  (empty_text s1 ->
   new_Address w s1 s2 c st z = refused "street1 cannot be empty.")
  /\ (~ empty_text s1 -> empty_text c ->
      new_Address w s1 s2 c st z = refused "city cannot be empty.")
  /\ (~ empty_text s1 -> ~ empty_text c -> empty_text st ->
      new_Address w s1 s2 c st z = refused "state cannot be empty.")
  /\ (~ empty_text s1 -> ~ empty_text c -> ~ empty_text st -> empty_number z ->
      new_Address w s1 s2 c st z = refused "zip cannot be empty.").
Proof.
  repeat split; intros; apply refused_by_check.
  - now apply check_fails_street1.
  - now apply check_fails_city.
  - now apply check_fails_state.
  - now apply check_fails_zip.
Qed.

(** Four inputs, one per required field, each with a later field empty too. *)
Lemma required_fields_checked_in_order_witness :
  new_Address Sample.net_found (Some "") None None (Some "NY") (Some 0%Z)
  = refused "street1 cannot be empty."
  /\ new_Address Sample.net_found (Some "1 Elm St") None None None (Some 12180%Z)
     = refused "city cannot be empty."
  /\ new_Address Sample.net_found (Some "1 Elm St") None (Some "Troy") (Some "") None
     = refused "state cannot be empty."
  /\ new_Address Sample.net_found (Some "1 Elm St") None (Some "Troy") (Some "NY")
                 (Some 0%Z)
     = refused "zip cannot be empty.".
Proof.
  assert (N : forall s : string, s <> "" -> ~ empty_text (Some s))
    by exact not_empty_text.
  split; [|split; [|split]].
  - apply (proj1 (required_fields_checked_in_order Sample.net_found
                    (Some "") None None (Some "NY") (Some 0%Z))).
    right; reflexivity.
  - apply (proj1 (proj2 (required_fields_checked_in_order Sample.net_found
                    (Some "1 Elm St") None None None (Some 12180%Z)))).
    + apply N; discriminate.
    + left; reflexivity.
  - apply (proj1 (proj2 (proj2 (required_fields_checked_in_order Sample.net_found
                    (Some "1 Elm St") None (Some "Troy") (Some "") None)))).
    + apply N; discriminate.
    + apply N; discriminate.
    + right; reflexivity.
  - apply (proj2 (proj2 (proj2 (required_fields_checked_in_order Sample.net_found
                    (Some "1 Elm St") None (Some "Troy") (Some "NY") (Some 0%Z))))).
    + apply N; discriminate.
    + apply N; discriminate.
    + apply N; discriminate.
    + right; reflexivity.
Defined.

(** C4.  When the four required fields are filled in and the state is no
    member of the registry, the construction is refused with the
    [ValueError] that names the state (the message of the code ends with a
    full stop), and no request has been made. *)
Theorem unknown_state_refused (w : env) (s1 c st : string)
  (s2 : option string) (z : Z) :
  s1 <> "" -> c <> "" -> st <> "" -> z <> 0%Z ->
  ~ In st (keys State.__members__) ->
  new_Address w (Some s1) s2 (Some c) (Some st) (Some z)
  = refused (st ++ " is not a valid state.").
Proof.
  intros H1 H2 H3 H4 Hst.
  rewrite new_Address_after_checks;
    auto using not_empty_text, not_empty_number.
  cbv zeta. cbn [state_isValid format_str].
  destruct (State.isValid st) eqn:E; [|reflexivity].
  exfalso. apply Hst. apply isValid_NY in E. subst st. now left.
Qed.

Lemma unknown_state_refused_witness :
  new_Address Sample.net_found (Some "123 Main St") None (Some "Troy")
              (Some "CA") (Some 12180%Z)
  = refused "CA is not a valid state.".
Proof.
  apply (unknown_state_refused Sample.net_found "123 Main St" "Troy" "CA"
           None 12180); try discriminate.
  intros [H|[]]; discriminate.
Defined.


(* ================================================================= *)
(** ** Display *)

Lemma str_of_present (x1 xc xs : string) (s2 : option string) (xz : Z)
  (xy : option (pyval * pyval)) :
  __str__ (mkAddress (Some x1) s2 (Some xc) (Some xs) (Some xz) xy)
  = x1 ++ street2_segment s2 ++ ", " ++ xc ++ ", " ++ xs ++ " "
    ++ str_of_int xz ++ ".".
Proof.
  unfold __str__; cbn [street1 street2 city state zip format_str format_int].
  destruct s2 as [[|ch rest]|]; reflexivity.
Qed.

(** C8.  The display string of a constructed address is
    "<street1>[, <street2>], <city>, <state> <zip>.", where the street2
    segment stands only when street2 is present (and not the empty string);
    the two examples of the specification follow. *)
Theorem display_format :
  (forall (w : env) (s1 s2 c st : option string) (z : option Z) (a : Address),
      constructed (new_Address w s1 s2 c st z) = Ok a ->
      exists (x1 xc xs : string) (xz : Z),
        s1 = Some x1 /\ c = Some xc /\ st = Some xs /\ z = Some xz
        /\ __str__ a
           = x1 ++ street2_segment s2 ++ ", " ++ xc ++ ", " ++ xs ++ " "
             ++ str_of_int xz ++ ".")
  /\ (street2_segment None = ""
      /\ forall s : string, s <> "" -> street2_segment (Some s) = ", " ++ s)
  /\ (forall (w : env) (a : Address),
         constructed (new_Address w (Some "123 Main St") None (Some "Troy")
                                  (Some "NY") (Some 12180%Z)) = Ok a ->
         __str__ a = "123 Main St, Troy, NY 12180.")
  /\ (forall (w : env) (a : Address),
         constructed (new_Address w (Some "123 Main St") (Some "Apt 4")
                                  (Some "Troy") (Some "NY") (Some 12180%Z)) = Ok a ->
         __str__ a = "123 Main St, Apt 4, Troy, NY 12180.").
Proof.
  assert (G : forall (w : env) (s1 s2 c st : option string) (z : option Z)
                     (a : Address),
             constructed (new_Address w s1 s2 c st z) = Ok a ->
             exists (x1 xc xs : string) (xz : Z),
               s1 = Some x1 /\ c = Some xc /\ st = Some xs /\ z = Some xz
               /\ __str__ a
                  = x1 ++ street2_segment s2 ++ ", " ++ xc ++ ", " ++ xs ++ " "
                    ++ str_of_int xz ++ ".").
  { intros w s1 s2 c st z a H.
    apply new_Address_success in H.
    destruct H as (N1 & N2 & N3 & N4 & _ & xy & _ & ->).
    apply present_text in N1, N2, N3. apply present_number in N4.
    destruct N1 as (x1 & -> & _), N2 as (xc & -> & _), N3 as (xs & -> & _),
             N4 as (xz & -> & _).
    exists x1, xc, xs, xz. repeat split. apply str_of_present. }
  split; [exact G|]. split.
  { split; [reflexivity|]. intros [|ch rest] N; [contradiction|reflexivity]. }
  split.
  - intros w a H. apply G in H.
    destruct H as (x1 & xc & xs & xz & E1 & E2 & E3 & E4 & ->).
    injection E1 as <-. injection E2 as <-. injection E3 as <-.
    injection E4 as <-. reflexivity.
  - intros w a H. apply G in H.
    destruct H as (x1 & xc & xs & xz & E1 & E2 & E3 & E4 & ->).
    injection E1 as <-. injection E2 as <-. injection E3 as <-.
    injection E4 as <-. reflexivity.
Qed.

(** The two examples, constructed on a network that finds the address. *)
Lemma display_format_witness :
  __str__ (Sample.troy None (Some (Sample.lat, Sample.lon)))
  = "123 Main St, Troy, NY 12180."
  /\ __str__ (Sample.troy (Some "Apt 4") (Some (Sample.lat, Sample.lon)))
     = "123 Main St, Apt 4, Troy, NY 12180.".
Proof.
  split.
  - apply (proj1 (proj2 (proj2 display_format)) Sample.net_found). reflexivity.
  - apply (proj2 (proj2 (proj2 display_format)) Sample.net_found). reflexivity.
Defined.

(* ================================================================= *)
(** ** Geocoding *)

(** C7.  From a response of status 200 whose body holds, under
    features[0].center, the two-element array [lon, lat], the construction
    stores the coordinates in the other order, (lat, lon), after one
    request. *)
Theorem coordinates_latitude_first (w : env) (s1 c st : string)
  (s2 : option string) (z : Z) (r : response) (doc : json)
  (features feature lon lat : pyval) :
  s1 <> "" -> c <> "" -> z <> 0%Z -> In st (keys State.__members__) ->
  let self := mkAddress (Some s1) s2 (Some c) (Some st) (Some z) None in
  let url := geocoding_url (MAPBOX_API_KEY w) self in
  requests_get w url = Ok r ->
  status_code r = 200%Z ->
  content r = JsonText doc ->
  getitem_key (py_of_json doc) "features" = Ok features ->
  getitem_index features 0 = Ok feature ->
  getitem_key feature "center" = Ok (PList [lon; lat]) ->
  new_Address w (Some s1) s2 (Some c) (Some st) (Some z)
  = mkConstruction
      (Ok (mkAddress (Some s1) s2 (Some c) (Some st) (Some z) (Some (lat, lon))))
      [url].
Proof.
  intros H1 H2 H4 Hst self url Hr Hs Hc Hf H0 Hcenter.
  assert (Est : st = "NY") by (destruct Hst as [E|[]]; now symmetry).
  assert (N3 : st <> "") by (subst st; discriminate).
  rewrite new_Address_after_checks;
    auto using not_empty_text, not_empty_number.
  cbv zeta. fold self. fold url.
  cbn [state_isValid]. rewrite (proj2 (isValid_NY st) Est). cbn [negb].
  unfold geocode. fold url. rewrite Hr. cbn [and_then]. rewrite Hs.
  cbn [Z.eqb Pos.eqb negb]. rewrite Hc. unfold read_center.
  cbn [json_loads and_then]. rewrite Hf. cbn [and_then]. rewrite H0.
  cbn [and_then]. rewrite Hcenter. reflexivity.
Qed.

(** The example of the specification: center = [-74.0, 40.7] gives the
    coordinates (40.7, -74.0). *)
Lemma coordinates_latitude_first_witness :
  constructed (new_Address Sample.net_found (Some "123 Main St") None
                           (Some "Troy") (Some "NY") (Some 12180%Z))
  = Ok (Sample.troy None (Some (Sample.lat, Sample.lon))).
Proof.
  rewrite (coordinates_latitude_first Sample.net_found "123 Main St" "Troy" "NY"
             None 12180 (mkResponse 200 Sample.body_found)
             Sample.doc_found
             (PList [PDict [("center", PList [Sample.lon; Sample.lat])]])
             (PDict [("center", PList [Sample.lon; Sample.lat])])
             Sample.lon Sample.lat);
    try reflexivity; try discriminate.
  left; reflexivity.
Defined.

(** The two ways in which the lookup fails a construction whose checks
    pass: a status other than 200 raises the [ValueError] of the code, and a
    status 200 with an empty [features] array raises [IndexError] from the
    subscript [features[0]]. *)
Lemma geocoding_failure_by_branch (w : env) (s1 c st : string)
  (s2 : option string) (z : Z) (r : response) :
  s1 <> "" -> c <> "" -> z <> 0%Z -> printable z ->
  In st (keys State.__members__) ->
  let self := mkAddress (Some s1) s2 (Some c) (Some st) (Some z) None in
  let url := geocoding_url (MAPBOX_API_KEY w) self in
  requests_get w url = Ok r ->
  (status_code r <> 200%Z ->
   new_Address w (Some s1) s2 (Some c) (Some st) (Some z)
   = mkConstruction
       (Raise (ValueError ("Could not get coordinates for " ++ __str__ self ++ ".")))
       [url])
  /\ (status_code r = 200%Z ->
      forall doc : json,
        content r = JsonText doc ->
        getitem_key (py_of_json doc) "features" = Ok (PList []) ->
        new_Address w (Some s1) s2 (Some c) (Some st) (Some z)
        = mkConstruction (Raise IndexError) [url]).
Proof.
  intros H1 H2 H4 _ Hst self url Hr.
  assert (Est : st = "NY") by (destruct Hst as [E|[]]; now symmetry).
  assert (N3 : st <> "") by (subst st; discriminate).
  rewrite new_Address_after_checks;
    auto using not_empty_text, not_empty_number.
  cbv zeta. fold self. fold url.
  cbn [state_isValid]. rewrite (proj2 (isValid_NY st) Est). cbn [negb].
  unfold geocode. fold url. rewrite Hr. cbn [and_then]. split.
  - intros Hs. apply Z.eqb_neq in Hs. rewrite Hs. reflexivity.
  - intros Hs doc Hc Hf. rewrite Hs. cbn [Z.eqb Pos.eqb negb].
    rewrite Hc. unfold read_center. cbn [json_loads and_then]. rewrite Hf.
    reflexivity.
Qed.

(** C2.  The code misses the claim on a response of status 200 whose
    [features] array is empty: for the sample address the construction
    fails with the [IndexError] of the subscript [features[0]], which is no
    [ValueError], where the branch for a status other than 200 fails it with
    [ValueError("Could not get coordinates for <str(self)>.")].  In both
    cases one request was made and the caller gets no instance. *)
Theorem empty_features_raise_IndexError :
  new_Address Sample.net_no_features (Some "123 Main St") None (Some "Troy")
              (Some "NY") (Some 12180%Z)
  = mkConstruction (Raise IndexError)
      ["https://api.mapbox.com/geocoding/v5/mapbox.places/123 Main St, Troy, NY 12180.json?access_token=pk.sample"]
  /\ is_ValueError IndexError = false
  /\ new_Address Sample.net_not_found (Some "123 Main St") None (Some "Troy")
                 (Some "NY") (Some 12180%Z)
     = mkConstruction
         (Raise (ValueError
            "Could not get coordinates for 123 Main St, Troy, NY 12180.."))
         ["https://api.mapbox.com/geocoding/v5/mapbox.places/123 Main St, Troy, NY 12180.json?access_token=pk.sample"].
Proof. split; [|split]; reflexivity. Qed.


(* ================================================================= *)
(** ** Dictionaries *)

Section Dict.

Context {V : Type}.
Implicit Types (d acc : list (string * V)) (k : string) (v : V).

Lemma dict_get_In k v d : dict_get k d = Some v -> In (k, v) d.
Proof.
  induction d as [|[k' v'] d IH]; cbn; [discriminate|].
  destruct (String.eqb_spec k k') as [->|N].
  - intros [= ->]. now left.
  - intros H. right. auto.
Qed.

Lemma dict_set_fresh k v d :
  ~ In k (keys d) -> dict_set k v d = (d ++ [(k, v)])%list.
Proof.
  induction d as [|[k' v'] d IH]; cbn; [reflexivity|].
  intros H. destruct (String.eqb_spec k k') as [->|N].
  - exfalso. apply H. now left.
  - rewrite IH; [reflexivity|]. intros Hin. apply H. now right.
Qed.

Lemma dict_set_keys k v d : In k (keys d) -> keys (dict_set k v d) = keys d.
Proof.
  induction d as [|[k' v'] d IH]; cbn; [intros []|].
  destruct (String.eqb_spec k k') as [->|N]; [reflexivity|].
  intros [E|H]; [congruence|]. cbn. f_equal. now apply IH.
Qed.

Lemma dict_set_NoDup k v d : NoDup (keys d) -> NoDup (keys (dict_set k v d)).
Proof.
  intros H. destruct (in_dec string_dec k (keys d)) as [Hin|Hout].
  - now rewrite dict_set_keys.
  - rewrite dict_set_fresh by assumption. unfold keys. rewrite map_app.
    apply NoDup_app; [assumption|repeat constructor; auto|].
    intros x Hx [<-|[]]. contradiction.
Qed.

Lemma dict_set_Forall (P : string * V -> Prop) k v d :
  (forall k', P (k', v)) -> Forall P d -> Forall P (dict_set k v d).
Proof.
  intros Hv. induction 1 as [|[k' v'] d Hx Hd IH]; cbn.
  - constructor; auto.
  - destruct (String.eqb k k'); constructor; auto.
Qed.

Lemma fold_dict_set_NoDup (ps : list (string * V)) acc :
  NoDup (keys acc) ->
  NoDup (keys (fold_left (fun d kv => dict_set (fst kv) (snd kv) d) ps acc)).
Proof.
  revert acc. induction ps as [|[k v] ps IH]; intros acc H; cbn; [assumption|].
  apply IH. now apply dict_set_NoDup.
Qed.

Lemma fold_dict_set_Forall (P : V -> Prop) (ps : list (string * V)) acc :
  Forall (fun kv => P (snd kv)) ps ->
  Forall (fun kv => P (snd kv)) acc ->
  Forall (fun kv => P (snd kv))
         (fold_left (fun d kv => dict_set (fst kv) (snd kv) d) ps acc).
Proof.
  intros Hps. revert acc.
  induction Hps as [|[k v] ps Hx _ IH]; intros acc H; cbn; [assumption|].
  apply IH. apply dict_set_Forall; auto.
Qed.

Lemma fold_dict_set_fresh (ps : list (string * V)) acc :
  NoDup (keys (acc ++ ps)) ->
  fold_left (fun d kv => dict_set (fst kv) (snd kv) d) ps acc = (acc ++ ps)%list.
Proof.
  revert acc. induction ps as [|[k v] ps IH]; intros acc H; cbn.
  - now rewrite app_nil_r.
  - unfold keys in H. rewrite map_app in H. cbn in H.
    pose proof (NoDup_remove_2 _ _ _ H) as Hk.
    rewrite dict_set_fresh.
    + rewrite IH; rewrite <- app_assoc; [reflexivity|].
      unfold keys. rewrite map_app. exact H.
    + intros Hin. apply Hk. apply in_or_app. now left.
Qed.

(** A dictionary is rebuilt from its own entries as it is. *)
Lemma dict_of_pairs_entries d : NoDup (keys d) -> dict_of_pairs d = d.
Proof. intros H. unfold dict_of_pairs. now rewrite fold_dict_set_fresh. Qed.

Lemma dict_of_pairs_NoDup (ps : list (string * V)) : NoDup (keys (dict_of_pairs ps)).
Proof. apply fold_dict_set_NoDup. constructor. Qed.

Lemma dict_of_pairs_Forall (P : V -> Prop) (ps : list (string * V)) :
  Forall (fun kv => P (snd kv)) ps ->
  Forall (fun kv => P (snd kv)) (dict_of_pairs ps).
Proof. intros H. apply fold_dict_set_Forall; auto. Qed.

End Dict.

(* ================================================================= *)
(** ** Encoding what was decoded *)

(** Induction on a document, with the hypothesis for every item of an array
    and every value of an object. *)
Lemma json_nested_ind (P : json -> Prop) :
  P JNull ->
  (forall b, P (JBool b)) ->
  (forall z, P (JInt z)) ->
  (forall f, P (JFloat f)) ->
  (forall s, P (JStr s)) ->
  (forall items, Forall P items -> P (JArr items)) ->
  (forall members, Forall (fun kj => P (snd kj)) members -> P (JObj members)) ->
  forall j, P j.
Proof.
  intros Hnull Hbool Hint Hfloat Hstr Harr Hobj.
  fix IH 1.
  intros [ |b|z|f|s|items|members];
    [exact Hnull|apply Hbool|apply Hint|apply Hfloat|apply Hstr| | ].
  - apply Harr. induction items as [|j items IHitems]; constructor.
    + apply IH.
    + exact IHitems.
  - apply Hobj. induction members as [|[k j] members IHmembers]; constructor.
    + apply IH.
    + exact IHmembers.
Qed.

(** The decoder returns values that the encoder writes back as they were
    read: they hold no tuple, and their dicts have one entry per key. *)
Lemma decode_encode_decoded (j : json) :
  py_of_json (json_of_py (py_of_json j)) = py_of_json j.
Proof.
  induction j as [ | | | | |items IH|members IH] using json_nested_ind;
    try reflexivity.
  - cbn. f_equal. rewrite !map_map.
    induction IH as [|j items Hj _ IHitems]; cbn; [reflexivity|].
    now rewrite Hj, IHitems.
  - cbn. f_equal. rewrite map_map. cbn [fst snd].
    set (d := dict_of_pairs (map (fun kj => (fst kj, py_of_json (snd kj))) members)).
    assert (Hd : Forall (fun kv => py_of_json (json_of_py (snd kv)) = snd kv) d).
    { apply (dict_of_pairs_Forall
               (fun v => py_of_json (json_of_py v) = v)).
      induction IH as [|[k j] members Hj _ IHm]; cbn; constructor; auto. }
    assert (Hmap : map (fun kv => (fst kv, py_of_json (json_of_py (snd kv)))) d = d).
    { clear -Hd. induction Hd as [|[k v] d Hv _ IHd]; cbn; [reflexivity|].
      cbn in Hv. now rewrite Hv, IHd. }
    rewrite Hmap. apply dict_of_pairs_entries. apply dict_of_pairs_NoDup.
Qed.

Lemma decoded_stable (v : pyval) : decoded v -> py_of_json (json_of_py v) = v.
Proof. intros [j ->]. apply decode_encode_decoded. Qed.

Lemma getitem_key_decoded (v w : pyval) (key : string) :
  decoded v -> getitem_key v key = Ok w -> decoded w.
Proof.
  intros [j ->]. destruct j as [ | | | | | |members]; cbn; try discriminate.
  destruct (dict_get key _) as [x|] eqn:E; [|discriminate].
  intros [= <-]. apply dict_get_In in E.
  assert (H : Forall (fun kv => decoded (snd kv))
                (dict_of_pairs
                   (map (fun kj => (fst kj, py_of_json (snd kj))) members))).
  { apply (dict_of_pairs_Forall decoded). apply Forall_forall.
    intros kv [kj [<- _]]%in_map_iff. cbn. now exists (snd kj). }
  rewrite Forall_forall in H. exact (H _ E).
Qed.

Lemma getitem_index_decoded (v w : pyval) (i : nat) :
  decoded v -> getitem_index v i = Ok w -> decoded w.
Proof.
  intros [j ->]. destruct j as [ | | | |s|items| ]; cbn; try discriminate.
  - destruct (char_at s i) as [ch|]; [|discriminate].
    intros [= <-]. now exists (JStr ch).
  - destruct (nth_error _ i) as [x|] eqn:E; [|discriminate].
    intros [= <-]. apply nth_error_In in E.
    apply in_map_iff in E. destruct E as [j [<- _]]. now exists j.
Qed.

Lemma read_center_decoded (body : text) (c1 c0 : pyval) :
  read_center body = Ok (c1, c0) -> decoded c1 /\ decoded c0.
Proof.
  unfold read_center. destruct body as [doc|]; cbn [json_loads and_then];
    [|discriminate].
  assert (Hp : decoded (py_of_json doc)) by now exists doc.
  destruct (getitem_key (py_of_json doc) "features") as [features|] eqn:E1;
    cbn [and_then]; [|discriminate].
  destruct (getitem_index features 0) as [feature|] eqn:E2;
    cbn [and_then]; [|discriminate].
  destruct (getitem_key feature "center") as [center|] eqn:E3;
    cbn [and_then]; [|discriminate].
  destruct (getitem_index center 1) as [x1|] eqn:E4;
    cbn [and_then]; [|discriminate].
  destruct (getitem_index center 0) as [x0|] eqn:E5;
    cbn [and_then]; [|discriminate].
  intros [= <- <-].
  pose proof (getitem_key_decoded _ _ _ Hp E1) as Hf.
  pose proof (getitem_index_decoded _ _ _ Hf E2) as Hf0.
  pose proof (getitem_key_decoded _ _ _ Hf0 E3) as Hc.
  split; eauto using getitem_index_decoded.
Qed.

Lemma geocode_decoded (w : env) (self : Address) (c1 c0 : pyval) :
  geocode w self = Ok (c1, c0) -> decoded c1 /\ decoded c0.
Proof.
  unfold geocode. destruct (requests_get w _) as [r|]; cbn [and_then];
    [|discriminate].
  destruct (negb _); [discriminate|]. apply read_center_decoded.
Qed.


(* ================================================================= *)
(** ** Serialisation *)

Lemma encode_decode_text_field (o : option string) :
  py_of_json (json_of_py (py_of_str o)) = py_of_str o.
Proof. now destruct o. Qed.

Lemma encode_decode_number_field (o : option Z) :
  py_of_json (json_of_py (py_of_int o)) = py_of_int o.
Proof. now destruct o. Qed.

Lemma py_eq_text_field (o : option string) : py_eq (py_of_str o) (py_of_str o) = true.
Proof. destruct o as [s|]; cbn; [apply String.eqb_refl|reflexivity]. Qed.

Lemma py_eq_number_field (o : option Z) : py_eq (py_of_int o) (py_of_int o) = true.
Proof. destruct o as [z|]; cbn; [apply Z.eqb_refl|reflexivity]. Qed.

(** [serialize] writes the attribute dictionary and changes nothing. *)
Lemma serialize_unfold (w : env) (d : dict) :
  serialize w d = mkOutcome (Ok (json_dumps (PDict d))) d [].
Proof. reflexivity. Qed.

(** [deserialize], by what [json.loads] makes of the text. *)
Lemma deserialize_unfold (w : env) (target : dict) (txt : text) :
  deserialize txt w target
  = match json_loads txt with
    | Ok (PDict entries) => mkOutcome (Ok tt) entries []
    | Ok _ => mkOutcome (Raise TypeError) target []
    | Raise e => mkOutcome (Raise e) target []
    end.
Proof.
  unfold deserialize, bind, lift. cbn [value self_after trace].
  destruct (json_loads txt) as [[ | | | | | | |entries]|e]; reflexivity.
Qed.

(** The attribute dictionary of an instance with coordinates, written and
    read back: the same entries, but the coordinates are a list. *)
Lemma loads_dumps_instance (s1 s2 c st : option string) (z : option Z)
  (lat lon : pyval) :
  decoded lat -> decoded lon ->
  json_loads (json_dumps
    (PDict (__dict__ (mkAddress s1 s2 c st z (Some (lat, lon))))))
  = Ok (PDict [ ("street1", py_of_str s1); ("street2", py_of_str s2);
                ("city", py_of_str c); ("state", py_of_str st);
                ("zip", py_of_int z); ("coordinates", PList [lat; lon]) ]).
Proof.
  intros Hlat Hlon. unfold json_dumps, json_loads, __dict__.
  cbn [street1 street2 city state zip coordinates app json_of_py map fst snd
       py_of_json].
  rewrite !encode_decode_text_field, encode_decode_number_field,
    (decoded_stable lat Hlat), (decoded_stable lon Hlon).
  reflexivity.
Qed.

(** C1, as the code has it.  After [deserialize(serialize(a))] of a
    constructed address, on any instance, the five declared fields hold the
    values they hold in [a], equal field for field, and [coordinates] holds
    the same two values in the same order in a list, where [a] holds them in
    a tuple: that field does not compare equal to the one of [a]. *)
Theorem roundtrip_keeps_fields_lists_coordinates (w w' : env)
  (s1 s2 c st : option string) (z : option Z) (a : Address) (target : dict) :
  constructed (new_Address w s1 s2 c st z) = Ok a ->
  exists lat lon : pyval,
    let sent := json_dumps (PDict (__dict__ a)) in
    let received :=
      [ ("street1", py_of_str s1); ("street2", py_of_str s2);
        ("city", py_of_str c); ("state", py_of_str st);
        ("zip", py_of_int z); ("coordinates", PList [lat; lon]) ] in
    __dict__ a
    = [ ("street1", py_of_str s1); ("street2", py_of_str s2);
        ("city", py_of_str c); ("state", py_of_str st);
        ("zip", py_of_int z); ("coordinates", PTuple [lat; lon]) ]
    /\ serialize w' (__dict__ a) = mkOutcome (Ok sent) (__dict__ a) []
    /\ deserialize sent w' target = mkOutcome (Ok tt) received []
    /\ (forall field : string,
           In field declared_fields ->
           same_field field (__dict__ a) received = true)
    /\ same_field "coordinates" (__dict__ a) received = false.
Proof.
  intros H. apply new_Address_success in H.
  destruct H as (_ & _ & _ & _ & _ & [lat lon] & Hgeo & ->).
  apply geocode_decoded in Hgeo. destruct Hgeo as [Hlat Hlon].
  exists lat, lon. cbv zeta. split; [reflexivity|].
  split; [apply serialize_unfold|]. split.
  - rewrite deserialize_unfold, loads_dumps_instance by assumption. reflexivity.
  - split.
    + intros field Hin. unfold declared_fields in Hin. cbn [In] in Hin.
      destruct Hin as [<-|[<-|[<-|[<-|[<-|[]]]]]];
        cbn; auto using py_eq_text_field, py_eq_number_field.
    + reflexivity.
Qed.

Lemma roundtrip_keeps_fields_lists_coordinates_witness :
  exists lat lon : pyval,
    let a := Sample.troy None (Some (Sample.lat, Sample.lon)) in
    let sent := json_dumps (PDict (__dict__ a)) in
    let received :=
      [ ("street1", PStr "123 Main St"); ("street2", PNone);
        ("city", PStr "Troy"); ("state", PStr "NY");
        ("zip", PInt 12180); ("coordinates", PList [lat; lon]) ] in
    __dict__ a
    = [ ("street1", PStr "123 Main St"); ("street2", PNone);
        ("city", PStr "Troy"); ("state", PStr "NY");
        ("zip", PInt 12180); ("coordinates", PTuple [lat; lon]) ]
    /\ serialize Sample.net_not_found (__dict__ a)
       = mkOutcome (Ok sent) (__dict__ a) []
    /\ deserialize sent Sample.net_not_found []
       = mkOutcome (Ok tt) received []
    /\ (forall field : string,
           In field declared_fields ->
           same_field field (__dict__ a) received = true)
    /\ same_field "coordinates" (__dict__ a) received = false.
Proof.
  exact (roundtrip_keeps_fields_lists_coordinates
           Sample.net_found Sample.net_not_found
           (Some "123 Main St") None (Some "Troy") (Some "NY") (Some 12180%Z)
           (Sample.troy None (Some (Sample.lat, Sample.lon))) []
           eq_refl).
Defined.

(** The claim C1 as it is written fails for the sample address: the
    coordinates read back are a list, and a list is not equal to a tuple. *)
Lemma roundtrip_changes_coordinates :
  let a := Sample.troy None (Some (Sample.lat, Sample.lon)) in
  let back :=
    self_after (deserialize (json_dumps (PDict (__dict__ a)))
                            Sample.net_found (__dict__ a)) in
  constructed (new_Address Sample.net_found (Some "123 Main St") None
                           (Some "Troy") (Some "NY") (Some 12180%Z)) = Ok a
  /\ value (serialize Sample.net_found (__dict__ a))
     = Ok (json_dumps (PDict (__dict__ a)))
  /\ value (deserialize (json_dumps (PDict (__dict__ a)))
                        Sample.net_found (__dict__ a)) = Ok tt
  /\ dict_get "coordinates" (__dict__ a)
     = Some (PTuple [Sample.lat; Sample.lon])
  /\ dict_get "coordinates" back = Some (PList [Sample.lat; Sample.lon])
  /\ same_field "coordinates" (__dict__ a) back = false.
Proof. repeat split. Qed.

(** C6.  On a text that spells a JSON object, [deserialize] succeeds
    without looking at the entries, leaves the decoded entries as the whole
    attribute dictionary, whatever the instance held before, and requests
    nothing from the network; when it raises, the instance is as it was. *)
Theorem deserialize_replaces_all_fields (w : env) (target : dict) :
  (forall members : list (string * json),
      deserialize (JsonText (JObj members)) w target
      = mkOutcome (Ok tt)
          (dict_of_pairs (map (fun kj => (fst kj, py_of_json (snd kj))) members))
          [])
  /\ (forall txt : text,
         trace (deserialize txt w target) = []
         /\ (value (deserialize txt w target) = Ok tt
             \/ self_after (deserialize txt w target) = target)).
Proof.
  split.
  - intros members. now rewrite deserialize_unfold.
  - intros txt. rewrite deserialize_unfold.
    destruct (json_loads txt) as [[ | | | | | | |entries]|e]; cbn; auto.
Qed.

(** C10.  Whenever the text decodes to a dict, as every text that spells a
    JSON object does, [deserialize] succeeds and the attributes are the
    decoded entries, whichever they are; so an instance with an empty
    street1, a state outside the registry and no coordinates can be had from
    a valid one. *)
Theorem deserialize_accepts_any_object :
  (forall (w : env) (target : dict) (txt : text) (entries : dict),
      json_loads txt = Ok (PDict entries) ->
      deserialize txt w target = mkOutcome (Ok tt) entries [])
  /\ (forall members : list (string * json),
         exists entries : dict,
           json_loads (JsonText (JObj members)) = Ok (PDict entries))
  /\ (exists (txt : text) (after : dict),
         deserialize txt Sample.net_found
                     (__dict__ (Sample.troy None (Some (Sample.lat, Sample.lon))))
         = mkOutcome (Ok tt) after []
         /\ dict_get "street1" after = Some (PStr "")
         /\ truthy (PStr "") = false
         /\ dict_get "state" after = Some (PStr "ZZ")
         /\ State.isValid "ZZ" = false
         /\ dict_get "coordinates" after = None).
Proof.
  split; [|split].
  - intros w target txt entries H. now rewrite deserialize_unfold, H.
  - intros members. eexists. reflexivity.
  - exists Sample.body_invalid. eexists. split; [reflexivity|].
    repeat split.
Qed.

Lemma deserialize_accepts_any_object_witness :
  deserialize Sample.body_invalid Sample.net_found
              (__dict__ (Sample.troy None (Some (Sample.lat, Sample.lon))))
  = mkOutcome (Ok tt) [("street1", PStr ""); ("state", PStr "ZZ")] [].
Proof.
  exact (proj1 deserialize_accepts_any_object Sample.net_found
           (__dict__ (Sample.troy None (Some (Sample.lat, Sample.lon))))
           Sample.body_invalid [("street1", PStr ""); ("state", PStr "ZZ")]
           eq_refl).
Defined.

(** C5, as the code has it.  [deserialize] fails exactly as [json.loads]
    or the assignment of [__dict__] does: when [json.loads] raises on the
    text ([JSONDecodeError], a [ValueError], when the text spells no JSON
    document) [deserialize] raises that exception; when [json.loads]
    returns a value that is not a dict it raises [TypeError]; when
    [json.loads] returns a dict it raises nothing, whichever keys the dict
    has.  A failed call leaves the instance as it was. *)
Theorem deserialize_failures (w : env) (target : dict) (txt : text) :
  (forall e : exn,
      json_loads txt = Raise e ->
      deserialize txt w target = mkOutcome (Raise e) target [])
  /\ (forall v : pyval,
         json_loads txt = Ok v -> is_dict v = false ->
         deserialize txt w target = mkOutcome (Raise TypeError) target [])
  /\ (forall entries : dict,
         json_loads txt = Ok (PDict entries) ->
         deserialize txt w target = mkOutcome (Ok tt) entries [])
  /\ json_loads BadText = Raise JSONDecodeError
  /\ is_ValueError JSONDecodeError = true.
Proof.
  rewrite deserialize_unfold. split; [|split; [|split; [|split]]].
  - intros e ->. reflexivity.
  - intros v -> H. destruct v; try discriminate; reflexivity.
  - intros entries ->. reflexivity.
  - reflexivity.
  - reflexivity.
Qed.

Lemma deserialize_failures_witness :
  deserialize (JsonText (JArr [JInt 1])) Sample.net_found [("street1", PStr "x")]
  = mkOutcome (Raise TypeError) [("street1", PStr "x")] []
  /\ deserialize BadText Sample.net_found [("street1", PStr "x")]
     = mkOutcome (Raise JSONDecodeError) [("street1", PStr "x")] [].
Proof.
  split.
  - exact (proj1 (proj2 (deserialize_failures Sample.net_found
                           [("street1", PStr "x")] (JsonText (JArr [JInt 1]))))
             (PList [PInt 1]) eq_refl eq_refl).
  - exact (proj1 (deserialize_failures Sample.net_found
                    [("street1", PStr "x")] BadText)
             JSONDecodeError eq_refl).
Defined.

(** The claim C5 as it is written fails on the text [{}]: none of the keys
    of an address is present, and [deserialize] raises nothing. *)
Lemma deserialize_accepts_missing_keys :
  deserialize (JsonText (JObj [])) Sample.net_found
              (__dict__ (Sample.troy None (Some (Sample.lat, Sample.lon))))
  = mkOutcome (Ok tt) [] []
  /\ dict_get "street1" (@nil (string * pyval)) = None
  /\ dict_get "coordinates" (@nil (string * pyval)) = None.
Proof. repeat split. Qed.


(* ================================================================= *)
(** ** More on construction *)

Lemma validated_checks (s1 c st : option string) (z : option Z) :
  validated s1 c st z ->
  ~ empty_text s1 /\ ~ empty_text c /\ ~ empty_text st /\ ~ empty_number z
  /\ state_isValid st = true.
Proof.
  intros (N1 & N2 & N4 & code & -> & Hin).
  assert (E : code = "NY") by (destruct Hin as [E|[]]; now symmetry).
  subst code. repeat split; auto. intros [H|H]; discriminate.
Qed.

Lemma checks_validated (s1 c st : option string) (z : option Z) :
  ~ empty_text s1 -> ~ empty_text c -> ~ empty_number z ->
  state_isValid st = true -> validated s1 c st z.
Proof.
  intros N1 N2 N4 Hst. repeat split; auto.
  destruct st as [code|]; [|discriminate]. cbn in Hst.
  apply isValid_NY in Hst. subst code. exists "NY". split; [reflexivity|].
  now left.
Qed.

(** A construction with validated arguments: one request, whose answer
    decides. *)
Lemma new_Address_validated (w : env) (s1 s2 c st : option string)
  (z : option Z) :
  validated s1 c st z ->
  new_Address w s1 s2 c st z
  = mkConstruction
      match geocode w (mkAddress s1 s2 c st z None) with
      | Ok xy => Ok (mkAddress s1 s2 c st z (Some xy))
      | Raise e => Raise e
      end
      [geocoding_url (MAPBOX_API_KEY w) (mkAddress s1 s2 c st z None)].
Proof.
  intros (N1 & N2 & N3 & N4 & Hst)%validated_checks.
  rewrite new_Address_after_checks by assumption. cbv zeta.
  now rewrite Hst.
Qed.

(** A construction whose arguments are not validated fails without a
    request, with a [ValueError]. *)
Lemma new_Address_not_validated (w : env) (s1 s2 c st : option string)
  (z : option Z) :
  ~ validated s1 c st z ->
  exists message : string, new_Address w s1 s2 c st z = refused message.
Proof.
  intros NV.
  destruct (empty_text_dec s1) as [E1|N1].
  { eexists. apply refused_by_check. now apply check_fails_street1. }
  destruct (empty_text_dec c) as [E2|N2].
  { eexists. apply refused_by_check. now apply check_fails_city. }
  destruct (empty_text_dec st) as [E3|N3].
  { eexists. apply refused_by_check. now apply check_fails_state. }
  destruct (empty_number_dec z) as [E4|N4].
  { eexists. apply refused_by_check. now apply check_fails_zip. }
  rewrite new_Address_after_checks by assumption. cbv zeta.
  destruct (state_isValid st) eqn:Hst; cbn [negb].
  - exfalso. apply NV. now apply checks_validated.
  - eexists. reflexivity.
Qed.

Lemma read_center_inv (body : text) (lat lon : pyval) :
  read_center body = Ok (lat, lon) ->
  exists (doc : json) (features feature center : pyval),
    body = JsonText doc
    /\ getitem_key (py_of_json doc) "features" = Ok features
    /\ getitem_index features 0 = Ok feature
    /\ getitem_key feature "center" = Ok center
    /\ getitem_index center 1 = Ok lat
    /\ getitem_index center 0 = Ok lon.
Proof.
  unfold read_center. destruct body as [doc|]; cbn [json_loads and_then];
    [|discriminate].
  destruct (getitem_key (py_of_json doc) "features") as [features|] eqn:E1;
    cbn [and_then]; [|discriminate].
  destruct (getitem_index features 0) as [feature|] eqn:E2;
    cbn [and_then]; [|discriminate].
  destruct (getitem_key feature "center") as [center|] eqn:E3;
    cbn [and_then]; [|discriminate].
  destruct (getitem_index center 1) as [x1|] eqn:E4;
    cbn [and_then]; [|discriminate].
  destruct (getitem_index center 0) as [x0|] eqn:E5;
    cbn [and_then]; [|discriminate].
  intros [= <- <-]. exists doc, features, feature, center. auto 7.
Qed.

Lemma geocode_inv (w : env) (self : Address) (xy : pyval * pyval) :
  geocode w self = Ok xy ->
  exists r : response,
    requests_get w (geocoding_url (MAPBOX_API_KEY w) self) = Ok r
    /\ status_code r = 200%Z
    /\ read_center (content r) = Ok xy.
Proof.
  unfold geocode.
  destruct (requests_get w _) as [r|e]; cbn [and_then]; [|discriminate].
  destruct (Z.eqb_spec (status_code r) 200) as [E|N]; cbn [negb];
    [|discriminate].
  intros H. now exists r.
Qed.

(** X1.  A constructed address holds the arguments it was made from; its
    street1 and city are non-empty strings, its zip is a non-zero integer,
    its state is the name of a registered state, and its coordinates are
    read from the response to the one request made: the response has status
    200, and with [center] for features[0]["center"] of its body the
    coordinates are (center[1], center[0]). *)
Theorem constructed_address_invariants (w : env)
  (s1 s2 c st : option string) (z : option Z) (a : Address) :
  constructed (new_Address w s1 s2 c st z) = Ok a ->
  exists (x1 xc xs : string) (xz : Z) (lat lon : pyval) (r : response)
         (doc : json) (features feature center : pyval),
    street1 a = Some x1 /\ x1 <> "" /\ s1 = Some x1
    /\ city a = Some xc /\ xc <> "" /\ c = Some xc
    /\ state a = Some xs /\ In xs (keys State.__members__) /\ st = Some xs
    /\ zip a = Some xz /\ xz <> 0%Z /\ z = Some xz
    /\ street2 a = s2
    /\ coordinates a = Some (lat, lon)
    /\ requested (new_Address w s1 s2 c st z)
       = [geocoding_url (MAPBOX_API_KEY w) (mkAddress s1 s2 c st z None)]
    /\ requests_get w
         (geocoding_url (MAPBOX_API_KEY w) (mkAddress s1 s2 c st z None))
       = Ok r
    /\ status_code r = 200%Z
    /\ content r = JsonText doc
    /\ getitem_key (py_of_json doc) "features" = Ok features
    /\ getitem_index features 0 = Ok feature
    /\ getitem_key feature "center" = Ok center
    /\ getitem_index center 1 = Ok lat
    /\ getitem_index center 0 = Ok lon.
Proof.
  intros H. apply new_Address_success in H.
  destruct H as (N1 & N2 & N3 & N4 & Hst & [lat lon] & Hgeo & ->).
  pose proof (checks_validated s1 c st z N1 N2 N4 Hst) as V.
  assert (Hreq : requested (new_Address w s1 s2 c st z)
                 = [geocoding_url (MAPBOX_API_KEY w)
                      (mkAddress s1 s2 c st z None)])
    by now rewrite new_Address_validated.
  destruct V as (_ & _ & _ & xs & -> & Hin).
  apply present_text in N1, N2. apply present_number in N4.
  destruct N1 as (x1 & -> & M1), N2 as (xc & -> & M2), N4 as (xz & -> & M4).
  apply geocode_inv in Hgeo. destruct Hgeo as (r & Hr & Hs & Hc).
  apply read_center_inv in Hc.
  destruct Hc as (doc & features & feature & center & Hb & E1 & E2 & E3 & E4 & E5).
  exists x1, xc, xs, xz, lat, lon, r, doc, features, feature, center.
  cbn [street1 street2 city state zip coordinates].
  repeat (split; [first [reflexivity|assumption]|]). assumption.
Qed.

Lemma constructed_address_invariants_witness :
  exists (x1 xc xs : string) (xz : Z) (lat lon : pyval) (r : response)
         (doc : json) (features feature center : pyval),
    let a := Sample.troy (Some "Apt 4") (Some (Sample.lat, Sample.lon)) in
    let url :=
      geocoding_url (MAPBOX_API_KEY Sample.net_found)
        (mkAddress (Some "123 Main St") (Some "Apt 4") (Some "Troy")
                   (Some "NY") (Some 12180%Z) None) in
    street1 a = Some x1 /\ x1 <> "" /\ Some "123 Main St" = Some x1
    /\ city a = Some xc /\ xc <> "" /\ Some "Troy" = Some xc
    /\ state a = Some xs /\ In xs (keys State.__members__) /\ Some "NY" = Some xs
    /\ zip a = Some xz /\ xz <> 0%Z /\ Some 12180%Z = Some xz
    /\ street2 a = Some "Apt 4"
    /\ coordinates a = Some (lat, lon)
    /\ requested (new_Address Sample.net_found (Some "123 Main St")
                    (Some "Apt 4") (Some "Troy") (Some "NY") (Some 12180%Z))
       = [url]
    /\ requests_get Sample.net_found url = Ok r
    /\ status_code r = 200%Z
    /\ content r = JsonText doc
    /\ getitem_key (py_of_json doc) "features" = Ok features
    /\ getitem_index features 0 = Ok feature
    /\ getitem_key feature "center" = Ok center
    /\ getitem_index center 1 = Ok lat
    /\ getitem_index center 0 = Ok lon.
Proof.
  exact (constructed_address_invariants Sample.net_found
           (Some "123 Main St") (Some "Apt 4") (Some "Troy") (Some "NY")
           (Some 12180%Z)
           (Sample.troy (Some "Apt 4") (Some (Sample.lat, Sample.lon)))
           eq_refl).
Defined.

(** X2.  The network is asked exactly when the arguments are validated:
    validated arguments, with a zip that CPython writes (at most 4300
    digits), lead to one request, whatever comes of it, and arguments that
    are not validated to a [ValueError] without a request. *)
Theorem request_exactly_when_validated (w : env)
  (s1 s2 c st : option string) (z : option Z) :
  (validated s1 c st z ->
   (forall n : Z, z = Some n -> printable n) ->
   requested (new_Address w s1 s2 c st z)
   = [geocoding_url (MAPBOX_API_KEY w) (mkAddress s1 s2 c st z None)])
  /\ (~ validated s1 c st z ->
      requested (new_Address w s1 s2 c st z) = []
      /\ exists message : string,
           constructed (new_Address w s1 s2 c st z) = Raise (ValueError message)).
Proof.
  split.
  - intros V _. now rewrite new_Address_validated.
  - intros NV. destruct (new_Address_not_validated w s1 s2 c st z NV) as [m ->].
    split; [reflexivity|]. now exists m.
Qed.

Lemma request_exactly_when_validated_witness :
  requested (new_Address Sample.net_not_found (Some "123 Main St") None
                         (Some "Troy") (Some "NY") (Some 12180%Z))
  = ["https://api.mapbox.com/geocoding/v5/mapbox.places/123 Main St, Troy, NY 12180.json?access_token=pk.sample"]
  /\ requested (new_Address Sample.net_found (Some "123 Main St") None
                            (Some "Troy") (Some "ny") (Some 12180%Z)) = [].
Proof.
  split.
  - apply (proj1 (request_exactly_when_validated Sample.net_not_found
                    (Some "123 Main St") None (Some "Troy") (Some "NY")
                    (Some 12180%Z))).
    + repeat split; try (intros [H|H]; discriminate).
      exists "NY". split; [reflexivity|now left].
    + intros n [= <-]. unfold printable, int_max_str_digits.
      vm_compute. reflexivity.
  - apply (proj2 (request_exactly_when_validated Sample.net_found
                    (Some "123 Main St") None (Some "Troy") (Some "ny")
                    (Some 12180%Z))).
    intros (_ & _ & _ & code & [= <-] & [H|[]]). discriminate.
Defined.

Lemma geocode_any_street2 (w : env) (s1 s2 s2' c st : option string)
  (z : option Z) (xy : pyval * pyval) :
  geocode w (mkAddress s1 s2 c st z None) = Ok xy ->
  geocode w (mkAddress s1 s2' c st z None) = Ok xy.
Proof.
  unfold geocode.
  change (geocoding_url (MAPBOX_API_KEY w) (mkAddress s1 s2' c st z None))
    with (geocoding_url (MAPBOX_API_KEY w) (mkAddress s1 s2 c st z None)).
  destruct (requests_get w _) as [r|e]; cbn [and_then]; [|discriminate].
  destruct (negb _); [discriminate|auto].
Qed.

(** X3.  street2 takes no part in the lookup: two constructions that differ
    in street2 only make the same requests, and when one of them succeeds
    the other succeeds with the same coordinates. *)
Theorem street2_not_looked_up (w : env) (s1 s2 s2' c st : option string)
  (z : option Z) :
  requested (new_Address w s1 s2 c st z) = requested (new_Address w s1 s2' c st z)
  /\ forall a : Address,
       constructed (new_Address w s1 s2 c st z) = Ok a ->
       constructed (new_Address w s1 s2' c st z)
       = Ok (mkAddress s1 s2' c st z (coordinates a)).
Proof.
  split.
  - destruct (empty_text_dec s1) as [E1|N1].
    { now rewrite !(refused_by_check w s1 _ c st z _
                      (check_fails_street1 w s1 _ c st z E1)). }
    destruct (empty_text_dec c) as [E2|N2].
    { now rewrite !(refused_by_check w s1 _ c st z _
                      (check_fails_city w s1 _ c st z N1 E2)). }
    destruct (empty_text_dec st) as [E3|N3].
    { now rewrite !(refused_by_check w s1 _ c st z _
                      (check_fails_state w s1 _ c st z N1 N2 E3)). }
    destruct (empty_number_dec z) as [E4|N4].
    { now rewrite !(refused_by_check w s1 _ c st z _
                      (check_fails_zip w s1 _ c st z N1 N2 N3 E4)). }
    rewrite !new_Address_after_checks by assumption. cbv zeta.
    destruct (state_isValid st); reflexivity.
  - intros a H. apply new_Address_success in H.
    destruct H as (N1 & N2 & N3 & N4 & Hst & xy & Hgeo & ->).
    rewrite new_Address_after_checks by assumption. cbv zeta.
    rewrite Hst. cbn [negb constructed coordinates].
    now rewrite (geocode_any_street2 w s1 s2 s2' c st z xy Hgeo).
Qed.

Lemma street2_not_looked_up_witness :
  constructed (new_Address Sample.net_found (Some "123 Main St") (Some "Apt 4")
                           (Some "Troy") (Some "NY") (Some 12180%Z))
  = Ok (Sample.troy (Some "Apt 4") (Some (Sample.lat, Sample.lon))).
Proof.
  exact (proj2 (street2_not_looked_up Sample.net_found (Some "123 Main St")
                  None (Some "Apt 4") (Some "Troy") (Some "NY") (Some 12180%Z))
           (Sample.troy None (Some (Sample.lat, Sample.lon))) eq_refl).
Defined.

(** X4.  An exception of [requests.get] is not caught: the construction of
    validated arguments fails with that very exception, after the one
    request. *)
Theorem network_exception_propagates (w : env) (s1 s2 c st : option string)
  (z : option Z) (e : exn) :
  validated s1 c st z ->
  requests_get w (geocoding_url (MAPBOX_API_KEY w) (mkAddress s1 s2 c st z None))
  = Raise e ->
  new_Address w s1 s2 c st z
  = mkConstruction (Raise e)
      [geocoding_url (MAPBOX_API_KEY w) (mkAddress s1 s2 c st z None)].
Proof.
  intros V H. rewrite new_Address_validated by assumption.
  unfold geocode. now rewrite H.
Qed.

Lemma network_exception_propagates_witness :
  constructed (new_Address (mkEnv "pk.sample" (fun _ => Raise RequestException))
                 (Some "123 Main St") None (Some "Troy") (Some "NY")
                 (Some 12180%Z))
  = Raise RequestException.
Proof.
  rewrite (network_exception_propagates
             (mkEnv "pk.sample" (fun _ => Raise RequestException))
             (Some "123 Main St") None (Some "Troy") (Some "NY") (Some 12180%Z)
             RequestException).
  - reflexivity.
  - repeat split; try (intros [H|H]; discriminate).
    exists "NY". split; [reflexivity|now left].
  - reflexivity.
Defined.


(* ================================================================= *)
(** ** The body of the response *)

(** With validated arguments and a response of status 200, the body alone
    decides. *)
Lemma new_Address_answered (w : env) (s1 s2 c st : option string)
  (z : option Z) (r : response) :
  validated s1 c st z -> answered_200 w s1 s2 c st z r ->
  new_Address w s1 s2 c st z
  = mkConstruction
      match read_center (content r) with
      | Ok xy => Ok (mkAddress s1 s2 c st z (Some xy))
      | Raise e => Raise e
      end
      [geocoding_url (MAPBOX_API_KEY w) (mkAddress s1 s2 c st z None)].
Proof.
  intros V [Hr Hs]. rewrite new_Address_validated by assumption.
  unfold geocode. rewrite Hr. cbn [and_then]. rewrite Hs. reflexivity.
Qed.

Lemma sample_validated (s2 : option string) :
  validated (Some "123 Main St") (Some "Troy") (Some "NY") (Some 12180%Z).
Proof.
  repeat split; try (intros [H|H]; discriminate).
  exists "NY". split; [reflexivity|now left].
Qed.

(** X5.  A response of status 200 whose body is no JSON text, or a JSON
    text that is not an object, fails the construction with what the decoder
    or the first subscript raises: [JSONDecodeError] and [TypeError]. *)
Theorem body_not_an_object_fails (w : env) (s1 s2 c st : option string)
  (z : option Z) (r : response) :
  validated s1 c st z -> answered_200 w s1 s2 c st z r ->
  (content r = BadText -> fails_after_request w s1 s2 c st z JSONDecodeError)
  /\ (forall doc : json,
         content r = JsonText doc -> is_object doc = false ->
         fails_after_request w s1 s2 c st z TypeError).
Proof.
  intros V A. unfold fails_after_request.
  rewrite (new_Address_answered w s1 s2 c st z r V A). split.
  - intros ->. reflexivity.
  - intros doc -> H. destruct doc; try discriminate; reflexivity.
Qed.

Lemma body_not_an_object_fails_witness :
  fails_after_request (net_answering BadText)
    (Some "123 Main St") None (Some "Troy") (Some "NY") (Some 12180%Z)
    JSONDecodeError
  /\ fails_after_request (net_answering (JsonText (JArr [JFloat 1; JFloat 2])))
       (Some "123 Main St") None (Some "Troy") (Some "NY") (Some 12180%Z)
       TypeError.
Proof.
  split.
  - apply (proj1 (body_not_an_object_fails (net_answering BadText)
                    (Some "123 Main St") None (Some "Troy") (Some "NY")
                    (Some 12180%Z) (mkResponse 200 BadText)
                    (sample_validated None) (conj eq_refl eq_refl))).
    reflexivity.
  - apply (proj2 (body_not_an_object_fails
                    (net_answering (JsonText (JArr [JFloat 1; JFloat 2])))
                    (Some "123 Main St") None (Some "Troy") (Some "NY")
                    (Some 12180%Z)
                    (mkResponse 200 (JsonText (JArr [JFloat 1; JFloat 2])))
                    (sample_validated None) (conj eq_refl eq_refl))
             (JArr [JFloat 1; JFloat 2])); reflexivity.
Defined.

(** X6.  A response of status 200 whose body is an object of the wrong
    shape fails the construction with what the failing subscript raises:
    [KeyError] when the object has no "features" or the first feature has no
    "center", [IndexError] when the list of features is empty or the center
    has fewer than two elements. *)
Theorem body_of_wrong_shape_fails (w : env) (s1 s2 c st : option string)
  (z : option Z) (r : response) (doc : json) (entries : dict) :
  validated s1 c st z -> answered_200 w s1 s2 c st z r ->
  content r = JsonText doc -> py_of_json doc = PDict entries ->
  (dict_get "features" entries = None ->
   fails_after_request w s1 s2 c st z KeyError)
  /\ (dict_get "features" entries = Some (PList []) ->
      fails_after_request w s1 s2 c st z IndexError)
  /\ (forall (feature : dict) (more : list pyval),
         dict_get "features" entries = Some (PList (PDict feature :: more)) ->
         (dict_get "center" feature = None ->
          fails_after_request w s1 s2 c st z KeyError)
         /\ (forall items : list pyval,
                dict_get "center" feature = Some (PList items) ->
                length items < 2 ->
                fails_after_request w s1 s2 c st z IndexError)).
Proof.
  intros V A Hc Hp. unfold fails_after_request.
  rewrite (new_Address_answered w s1 s2 c st z r V A), Hc.
  unfold read_center. cbn [json_loads and_then]. rewrite Hp.
  cbn [getitem_key]. split; [|split].
  - intros ->. reflexivity.
  - intros ->. reflexivity.
  - intros feature more ->. cbn [and_then getitem_index nth_error getitem_key].
    split.
    + intros ->. reflexivity.
    + intros items -> Hlen. cbn [and_then getitem_index].
      destruct items as [|x [|y items]]; cbn in Hlen |- *;
        [reflexivity|reflexivity|].
      exfalso. apply (Nat.lt_irrefl 2).
      apply Nat.le_lt_trans with (S (S (length items))); [|exact Hlen].
      apply le_n_S, le_n_S, Nat.le_0_l.
Qed.

Lemma body_of_wrong_shape_fails_witness :
  fails_after_request (net_answering (JsonText doc_short_center))
    (Some "123 Main St") None (Some "Troy") (Some "NY") (Some 12180%Z)
    IndexError.
Proof.
  apply (proj2 (proj2 (proj2
           (body_of_wrong_shape_fails
              (net_answering (JsonText doc_short_center))
              (Some "123 Main St") None (Some "Troy") (Some "NY")
              (Some 12180%Z)
              (mkResponse 200 (JsonText doc_short_center))
              doc_short_center
              [("features", PList [PDict [("center", PList [PFloat 1])]])]
              (sample_validated None) (conj eq_refl eq_refl) eq_refl eq_refl))
           [("center", PList [PFloat 1])] [] eq_refl)
         [PFloat 1] eq_refl).
  apply le_n.
Defined.

(** X7.  The center is not checked beyond its first two items: of a list
    with more than two items the rest is dropped, and a string of two or
    more characters gives its first two characters, swapped, as
    coordinates. *)
Theorem center_read_leniently (w : env) (s1 s2 c st : option string)
  (z : option Z) (r : response) (doc : json) (entries feature : dict)
  (more : list pyval) :
  validated s1 c st z -> answered_200 w s1 s2 c st z r ->
  content r = JsonText doc -> py_of_json doc = PDict entries ->
  dict_get "features" entries = Some (PList (PDict feature :: more)) ->
  (forall (lon lat : pyval) (rest : list pyval),
      dict_get "center" feature = Some (PList (lon :: lat :: rest)) ->
      succeeds_with w s1 s2 c st z (lat, lon))
  /\ (forall (a b : Ascii.ascii) (rest : string),
         dict_get "center" feature = Some (PStr (String a (String b rest))) ->
         succeeds_with w s1 s2 c st z
           (PStr (String b EmptyString), PStr (String a EmptyString))).
Proof.
  intros V A Hc Hp Hf. unfold succeeds_with.
  rewrite (new_Address_answered w s1 s2 c st z r V A), Hc.
  unfold read_center. cbn [json_loads and_then]. rewrite Hp.
  cbn [getitem_key]. rewrite Hf.
  cbn [and_then getitem_index nth_error getitem_key]. split.
  - intros lon lat rest ->. reflexivity.
  - intros a b rest ->. reflexivity.
Qed.

Lemma center_read_leniently_witness :
  succeeds_with (net_answering (JsonText doc_text_center))
    (Some "123 Main St") None (Some "Troy") (Some "NY") (Some 12180%Z)
    (PStr "b", PStr "a").
Proof.
  exact (proj2 (center_read_leniently
                  (net_answering (JsonText doc_text_center))
                  (Some "123 Main St") None (Some "Troy") (Some "NY")
                  (Some 12180%Z)
                  (mkResponse 200 (JsonText doc_text_center))
                  doc_text_center
                  [("features", PList [PDict [("center", PStr "ab")]])]
                  [("center", PStr "ab")] []
                  (sample_validated None) (conj eq_refl eq_refl)
                  eq_refl eq_refl eq_refl)
           "a"%char "b"%char ""%string eq_refl).
Defined.


(* ================================================================= *)
(** ** The display string and the search text *)

Lemma string_app_assoc (a b c : string) : (a ++ b) ++ c = a ++ b ++ c.
Proof. induction a as [|ch a IH]; cbn; [reflexivity|now rewrite IH]. Qed.

(** X8.  The text sent to the geocoder is the display string of the
    address without its street2 and without the final full stop; and the
    display string does not tell street2 from the end of street1: an address
    with street2 is displayed as the address whose street1 ends in
    ", <street2>". *)
Theorem display_and_search_text (s1 s2 c st : option string) (z : option Z)
  (xy : option (pyval * pyval)) :
  __str__ (mkAddress s1 None c st z xy)
  = search_text (mkAddress s1 s2 c st z xy) ++ "."
  /\ (empty_text s2 ->
      __str__ (mkAddress s1 s2 c st z xy)
      = search_text (mkAddress s1 s2 c st z xy) ++ ".")
  /\ (forall x1 x2 : string,
         s1 = Some x1 -> s2 = Some x2 -> x2 <> "" ->
         __str__ (mkAddress s1 s2 c st z xy)
         = __str__ (mkAddress (Some (x1 ++ ", " ++ x2)) None c st z xy)).
Proof.
  assert (E : __str__ (mkAddress s1 None c st z xy)
              = search_text (mkAddress s1 s2 c st z xy) ++ ".").
  { unfold __str__, search_text.
    cbn [street1 street2 city state zip py_of_str truthy].
    repeat first [rewrite string_app_assoc | progress cbn [append]].
    reflexivity. }
  split; [exact E|]. split.
  - intros H. rewrite <- E. unfold __str__.
    cbn [street1 street2 city state zip]. apply truthy_text in H.
    now rewrite H.
  - intros x1 x2 -> -> N. unfold __str__.
    cbn [street1 street2 city state zip format_str py_of_str truthy].
    destruct x2 as [|ch x2]; [contradiction|].
    cbn [String.eqb negb].
    repeat first [rewrite string_app_assoc | progress cbn [append]].
    reflexivity.
Qed.

Lemma display_and_search_text_witness :
  __str__ (Sample.troy (Some "Apt 4") None)
  = __str__ (mkAddress (Some "123 Main St, Apt 4") None (Some "Troy")
                       (Some "NY") (Some 12180%Z) None).
Proof.
  apply (proj2 (proj2 (display_and_search_text (Some "123 Main St")
                         (Some "Apt 4") (Some "Troy") (Some "NY")
                         (Some 12180%Z) None))
           "123 Main St" "Apt 4" eq_refl eq_refl).
  discriminate.
Defined.

(* ================================================================= *)
(** ** More on serialisation *)

(** X9.  A state that [deserialize] has accepted, from any text, is
    written by [serialize] and read back by [deserialize] as it is: after a
    first round trip, every further one changes nothing. *)
Theorem roundtrip_fixes_decoded_state (w : env) (target : dict) (txt : text)
  (entries : dict) :
  deserialize txt w target = mkOutcome (Ok tt) entries [] ->
  serialize w entries = mkOutcome (Ok (json_dumps (PDict entries))) entries []
  /\ deserialize (json_dumps (PDict entries)) w entries
     = mkOutcome (Ok tt) entries [].
Proof.
  intros H. split; [reflexivity|].
  rewrite deserialize_unfold in H.
  destruct txt as [doc|]; cbn [json_loads] in H; [|discriminate].
  destruct (py_of_json doc) as [ | | | | | | |e] eqn:E; try discriminate.
  injection H as <-.
  rewrite deserialize_unfold. unfold json_dumps, json_loads.
  rewrite <- E, decode_encode_decoded, E. reflexivity.
Qed.

Lemma roundtrip_fixes_decoded_state_witness :
  deserialize
    (json_dumps (PDict [("street1", PStr ""); ("state", PStr "ZZ")]))
    Sample.net_found [("street1", PStr ""); ("state", PStr "ZZ")]
  = mkOutcome (Ok tt) [("street1", PStr ""); ("state", PStr "ZZ")] [].
Proof.
  exact (proj2 (roundtrip_fixes_decoded_state Sample.net_found []
                  Sample.body_invalid
                  [("street1", PStr ""); ("state", PStr "ZZ")] eq_refl)).
Defined.

(* ================================================================= *)
(** ** Comparison of instances *)






(* ================================================================= *)
(** ** The handler [pickup] *)

Section PickupFacts.

Context {address store : Type}.
Variable load : pyval -> result address.
Variable add_pickup_location : store -> string -> address -> result unit * store.

(** What [pickup] reads from a request: a name and an address, from a body
    that is an object of one member whose value the loader accepts, and from
    no other. *)
Lemma pickup_read_accepts (request_data : result text) (name : string)
  (a : address) :
  pickup_read load request_data = Ok (name, a)
  <-> exists (body : text) (v : pyval),
        request_data = Ok body /\ json_loads body = Ok (PDict [(name, v)])
        /\ load v = Ok a.
Proof.
  unfold pickup_read. split.
  - destruct request_data as [body|e]; cbn [and_then]; [|discriminate].
    destruct (json_loads body) as [data|e] eqn:Ej; cbn [and_then];
      [|discriminate].
    destruct (py_len data) as [n|e] eqn:En; cbn [and_then]; [|discriminate].
    destruct (Nat.eqb_spec n 1) as [->|N]; cbn [negb]; [|discriminate].
    destruct (py_keys data) as [names|e] eqn:Ek; cbn [and_then]; [|discriminate].
    destruct names as [|name' names]; cbn [first_name and_then]; [discriminate|].
    assert (Hd : exists v, data = PDict [(name', v)]).
    { destruct data as [ | | | | | | |entries]; cbn in En, Ek; try discriminate.
      destruct entries as [|[k v] [|kv rest]]; cbn in En, Ek; try discriminate.
      injection Ek as <- <-. now exists v. }
    destruct Hd as [v ->]. cbn [getitem_key dict_get].
    rewrite String.eqb_refl. cbn [and_then].
    destruct (load v) as [a'|e] eqn:El; cbn [and_then]; [|discriminate].
    intros [= <- <-]. exists body, v. auto.
  - intros (body & v & -> & Hj & Hl). cbn [and_then]. rewrite Hj.
    cbn [and_then py_len length Nat.eqb negb py_keys keys map fst first_name
         getitem_key dict_get].
    rewrite String.eqb_refl. cbn [and_then]. now rewrite Hl.
Qed.

(** X11.  [pickup] hands the store nothing but a name and an address that
    the loader returned for the value of a body with exactly one member:
    every other request, and every failure of the loader, is answered with
    the failure and leaves the store as it is. *)
Theorem pickup_changes_store_only_after_load (request_data : result text)
  (st : store) :
  (exists e : exn,
      pickup load add_pickup_location request_data st = (Failed e, st))
  \/ (exists (body : text) (name : string) (v : pyval) (a : address),
         request_data = Ok body
         /\ json_loads body = Ok (PDict [(name, v)])
         /\ load v = Ok a
         /\ pickup load add_pickup_location request_data st
            = (match fst (add_pickup_location st name a) with
               | Ok _ => Succeeded None
               | Raise e => Failed e
               end,
               snd (add_pickup_location st name a))).
Proof.
  unfold pickup.
  destruct (pickup_read load request_data) as [[name a]|e] eqn:E.
  - right. apply pickup_read_accepts in E. destruct E as (body & v & Hr & Hj & Hl).
    exists body, name, v, a. repeat (split; [assumption|]).
    destruct (add_pickup_location st name a) as [[u|e] st']; reflexivity.
  - left. now exists e.
Qed.

(** X12.  A body whose JSON value does not have exactly one item is
    refused with "Invalid format." when it has a length, and with a
    [TypeError] when it has none (a number, a boolean, null); the store is
    left as it is. *)
Theorem pickup_refuses_other_sizes (body : text) (data : pyval) (st : store) :
  json_loads body = Ok data ->
  (forall n : nat,
      py_len data = Ok n -> n <> 1 ->
      pickup load add_pickup_location (Ok body) st
      = (Failed (ValueError "Invalid format."), st))
  /\ (py_len data = Raise TypeError ->
      pickup load add_pickup_location (Ok body) st = (Failed TypeError, st)).
Proof.
  intros Hj. unfold pickup, pickup_read. cbn [and_then]. rewrite Hj.
  cbn [and_then]. split.
  - intros n -> N. cbn [and_then].
    destruct (Nat.eqb_spec n 1) as [E|_]; [contradiction|reflexivity].
  - intros ->. reflexivity.
Qed.

End PickupFacts.

Lemma pickup_refuses_other_sizes_witness :
  pickup (fun _ => Ok tt) (fun st name _ => (Ok tt, name :: st))
         (Ok (JsonText (JObj [("a", JNull); ("b", JNull)]))) ["depot"]
  = (Failed (ValueError "Invalid format."), ["depot"]).
Proof.
  apply (proj1 (pickup_refuses_other_sizes
                  (fun _ : pyval => @Ok unit tt)
                  (fun st name (_ : unit) => (@Ok unit tt, name :: st))
                  (JsonText (JObj [("a", JNull); ("b", JNull)]))
                  (PDict [("a", PNone); ("b", PNone)]) ["depot"] eq_refl)
           2 eq_refl).
  discriminate.
Defined.

(** X13.  With the class [Address] of address.py, which has no [load],
    [pickup] never succeeds and never changes the store: every request is
    answered with a failure, and a request of the expected format with the
    [AttributeError] for "load". *)
Theorem pickup_never_succeeds {store : Type}
  (add_pickup_location : store -> string -> Address -> result unit * store)
  (request_data : result text) (st : store) :
  exists e : exn,
    pickup Address_load add_pickup_location request_data st = (Failed e, st)
    /\ forall (body : text) (name : string) (v : pyval),
         request_data = Ok body ->
         json_loads body = Ok (PDict [(name, v)]) ->
         e = AttributeError "load".
Proof.
  unfold pickup.
  destruct (pickup_read Address_load request_data) as [[name a]|e] eqn:E.
  - apply pickup_read_accepts in E. destruct E as (body & v & _ & _ & H).
    unfold Address_load in H. discriminate.
  - exists e. split; [reflexivity|]. intros body name v -> Hj.
    unfold pickup_read in E. cbn [and_then] in E. rewrite Hj in E.
    cbn [and_then py_len length Nat.eqb negb py_keys keys map fst first_name
         getitem_key dict_get] in E.
    rewrite String.eqb_refl in E. cbn in E. now injection E as <-.
Qed.

(* ================================================================= *)
(** ** The handler [chat] *)

Section ListFacts.

Context {A : Type}.

Lemma nth_error_set_nth_other (i j : nat) (x : A) (l : list A) :
  i <> j -> nth_error (set_nth i x l) j = nth_error l j.
Proof.
  revert i j. induction l as [|y l IH]; intros [|i] [|j] N; cbn;
    try reflexivity; try contradiction.
  apply IH. intros ->. now apply N.
Qed.

Lemma nth_error_set_nth_same (i : nat) (x y : A) (l : list A) :
  nth_error l i = Some y -> nth_error (set_nth i x l) i = Some x.
Proof.
  revert i. induction l as [|z l IH]; intros [|i]; cbn; try discriminate; auto.
Qed.

Lemma length_set_nth (i : nat) (x : A) (l : list A) :
  length (set_nth i x l) = length l.
Proof.
  revert i. induction l as [|y l IH]; intros [|i]; cbn; auto.
Qed.

End ListFacts.

Section ChatFacts.

Context {bot : Type}.
Variable ChatBot : result bot.
Variable getResponse : bot -> pyval -> result string * bot.

Implicit Types (chats : list (pyval * bot)) (id : pyval).

Lemma find_session_found id chats (i : nat) :
  find_session id chats = Some i ->
  exists (k : pyval) (b : bot),
    nth_error chats i = Some (k, b) /\ py_eq k id = true.
Proof.
  revert i. induction chats as [|[k b] chats IH]; cbn; [discriminate|].
  intros i. destruct (py_eq k id) eqn:E.
  - intros [= <-]. now exists k, b.
  - destruct (find_session id chats) as [j|]; [|discriminate].
    intros [= <-]. cbn. now apply IH.
Qed.

Lemma set_nth_keys (i : nat) (k : pyval) (b b' : bot) chats :
  nth_error chats i = Some (k, b) ->
  map fst (set_nth i (k, b') chats) = map fst chats.
Proof.
  revert i. induction chats as [|[k0 b0] chats IH]; intros [|i]; cbn;
    try discriminate.
  - now intros [= -> _].
  - intros H. f_equal. now apply IH.
Qed.

(** The session that a request is about, after [open_session]: it is at
    the position returned, old sessions are where they were, and at most
    one session was added, at the end. *)
Lemma open_session_spec id chats (i : nat) (chats1 : list (pyval * bot)) :
  open_session ChatBot id chats = Ok (i, chats1) ->
  (find_session id chats = Some i /\ chats1 = chats)
  \/ (find_session id chats = None /\ i = length chats
      /\ exists b, ChatBot = Ok b /\ chats1 = (chats ++ [(id, b)])%list).
Proof.
  unfold open_session. destruct (find_session id chats) as [j|] eqn:E.
  - intros [= <- <-]. now left.
  - destruct ChatBot as [b|e]; cbn [and_then]; [|discriminate].
    intros [= <- <-]. right. repeat split. now exists b.
Qed.

(** X14.  A request whose JSON value does not have exactly two items is
    refused with "Invalid format." when it has a length and with a
    [TypeError] when it has none; no conversation is begun and none is
    touched. *)
Theorem chat_refuses_other_sizes (data : pyval) chats :
  (forall n : nat,
      py_len data = Ok n -> n <> 2 ->
      chat ChatBot getResponse (Ok data) chats
      = (Failed (ValueError "Invalid format."), chats))
  /\ (py_len data = Raise TypeError ->
      chat ChatBot getResponse (Ok data) chats = (Failed TypeError, chats)).
Proof.
  unfold chat, chat_read. cbn [and_then]. split.
  - intros n -> N. cbn [and_then].
    destruct (Nat.eqb_spec n 2) as [E|_]; [contradiction|reflexivity].
  - intros ->. reflexivity.
Qed.

(** X15.  A request whose id is equal to itself (any id but a NaN) leaves
    the conversations of the other ids alone: the ids stay where they were,
    at most one id is added, at the end, and the bot of every id that is not
    equal to the id of the request is the one it was. *)
Theorem chat_keeps_other_sessions (request_json : result pyval) chats :
  (forall data id,
      request_json = Ok data -> getitem_key data "id" = Ok id ->
      self_equal id) ->
  (exists added : list pyval,
      map fst (snd (chat ChatBot getResponse request_json chats))
      = (map fst chats ++ added)%list
      /\ length added <= 1)
  /\ (forall (j : nat) (k : pyval) (b : bot),
         nth_error chats j = Some (k, b) ->
         (forall data id,
             request_json = Ok data -> getitem_key data "id" = Ok id ->
             py_eq k id = false) ->
         nth_error (snd (chat ChatBot getResponse request_json chats)) j
         = Some (k, b)).
Proof.
  intros _. unfold chat.
  destruct (chat_read request_json) as [[data id]|e] eqn:Er.
  2:{ cbn [snd]. split; [|auto]. exists []. now rewrite app_nil_r; auto. }
  assert (Hid : request_json = Ok data /\ getitem_key data "id" = Ok id).
  { unfold chat_read in Er.
    destruct request_json as [d|e]; cbn [and_then] in Er; [|discriminate].
    destruct (py_len d) as [n|e]; cbn [and_then] in Er; [|discriminate].
    destruct (negb (Nat.eqb n 2)); [discriminate|].
    destruct (getitem_key d "id") as [x|e] eqn:Eg; cbn [and_then] in Er;
      [|discriminate].
    destruct (hashable x); [|discriminate].
    injection Er as <- <-. auto. }
  destruct Hid as [Hrq Hget].
  destruct (open_session ChatBot id chats) as [[i chats1]|e] eqn:Eo.
  2:{ cbn [snd]. split; [|auto]. exists []. now rewrite app_nil_r; auto. }
  apply open_session_spec in Eo.
  assert (Hkeys : exists added, map fst chats1 = (map fst chats ++ added)%list
                                /\ length added <= 1).
  { destruct Eo as [[_ ->]|(_ & _ & b & _ & ->)].
    - exists []. now rewrite app_nil_r; auto.
    - exists [id]. rewrite map_app. auto. }
  assert (Hold : forall j k b,
             nth_error chats j = Some (k, b) -> py_eq k id = false ->
             nth_error chats1 j = Some (k, b) /\ i <> j).
  { intros j k b Hj Hk. destruct Eo as [[Hf ->]|(_ & -> & b0 & _ & ->)].
    - split; [assumption|]. intros ->.
      apply find_session_found in Hf. destruct Hf as (k' & b' & Hn & He).
      rewrite Hn in Hj. injection Hj as -> ->. congruence.
    - assert (Hlt : j < length chats) by (apply nth_error_Some; congruence).
      split; [now rewrite nth_error_app1|].
      intros E. rewrite E in Hlt. exact (Nat.lt_irrefl _ Hlt). }
  destruct (getitem_key data "query") as [query|e].
  2:{ cbn [snd]. split; [assumption|]. intros j k b Hj Hk.
      apply (Hold j k b Hj). now apply (Hk data id). }
  destruct (nth_error chats1 i) as [[k0 b0]|] eqn:En.
  2:{ cbn [snd]. split; [assumption|]. intros j k b Hj Hk.
      apply (Hold j k b Hj). now apply (Hk data id). }
  destruct (getResponse b0 query) as [r b']. cbn [snd]. split.
  - now rewrite (set_nth_keys i k0 b0 b' chats1 En).
  - intros j k b Hj Hk.
    destruct (Hold j k b Hj (Hk data id Hrq Hget)) as [H1 H2].
    now rewrite nth_error_set_nth_other.
Qed.

(** X16.  A conversation that a request begins stays when the request
    fails later: a request of two items that names a new id and has no
    "query" is answered with the [KeyError], and the bot made for the id is
    kept in [chats]. *)
Theorem chat_keeps_session_of_failed_request (entries : dict) id chats
  (b : bot) :
  length entries = 2 ->
  dict_get "id" entries = Some id -> hashable id = true ->
  dict_get "query" entries = None ->
  find_session id chats = None ->
  ChatBot = Ok b ->
  chat ChatBot getResponse (Ok (PDict entries)) chats
  = (Failed KeyError, (chats ++ [(id, b)])%list).
Proof.
  intros Hlen Hid Hh Hq Hf Hb. unfold chat, chat_read, open_session.
  cbn [and_then py_len getitem_key]. rewrite Hlen, Hid.
  cbn [Nat.eqb negb and_then]. rewrite Hh, Hf, Hb.
  cbn [and_then getitem_key]. rewrite Hq. reflexivity.
Qed.

(** X17.  A conversation carries the bot from one request to the next:
    the first request for an id makes a bot and asks it, the next request
    for the same id asks the bot as the first one left it, and makes none;
    the dict holds one session for the id. *)
Theorem chat_carries_bot_over (name : string) (q1 q2 : pyval) (b0 : bot) :
  ChatBot = Ok b0 ->
  let request (q : pyval) := Ok (PDict [("id", PStr name); ("query", q)]) in
  let first := getResponse b0 q1 in
  let second := getResponse (snd first) q2 in
  let reply_of (r : result string) :=
    match r with
    | Ok prompt => Succeeded (Some prompt)
    | Raise e => Failed e
    end in
  chat ChatBot getResponse (request q1) []
  = (reply_of (fst first), [(PStr name, snd first)])
  /\ chat ChatBot getResponse (request q2) [(PStr name, snd first)]
     = (reply_of (fst second), [(PStr name, snd second)]).
Proof.
  intros Hb. cbv zeta. unfold chat, chat_read, open_session.
  cbn [and_then py_len length Nat.eqb negb getitem_key dict_get String.eqb
       Ascii.eqb Bool.eqb hashable find_session].
  rewrite Hb. cbn. rewrite String.eqb_refl.
  destruct (getResponse b0 q1) as [r1 b1]. cbn.
  destruct (getResponse b1 q2) as [r2 b2]. cbn. split; reflexivity.
Qed.

End ChatFacts.

Lemma chat_keeps_other_sessions_witness :
  nth_error
    (snd (chat (Ok 0) (fun b _ => (Ok "hello", S b))
               (Ok (PDict [("id", PStr "u1"); ("query", PStr "hi")]))
               [(PStr "u0", 5)])) 0
  = Some (PStr "u0", 5).
Proof.
  assert (Hself : forall data id : pyval,
             Ok (PDict [("id", PStr "u1"); ("query", PStr "hi")]) = Ok data ->
             getitem_key data "id" = Ok id -> self_equal id).
  { intros data id [= <-] [= <-]. reflexivity. }
  apply (proj2 (chat_keeps_other_sessions (Ok 0) (fun b _ => (Ok "hello", S b))
                  (Ok (PDict [("id", PStr "u1"); ("query", PStr "hi")]))
                  [(PStr "u0", 5)] Hself)
           0 (PStr "u0") 5 eq_refl).
  intros data id [= <-] [= <-]. reflexivity.
Defined.

Lemma chat_keeps_session_of_failed_request_witness :
  chat (Ok 0) (fun b _ => (Ok "hello", S b))
       (Ok (PDict [("id", PStr "u1"); ("text", PStr "hi")])) []
  = (Failed KeyError, [(PStr "u1", 0)]).
Proof.
  exact (chat_keeps_session_of_failed_request (Ok 0)
           (fun b _ => (Ok "hello", S b))
           [("id", PStr "u1"); ("text", PStr "hi")] (PStr "u1") [] 0
           eq_refl eq_refl eq_refl eq_refl eq_refl eq_refl).
Defined.

Lemma chat_carries_bot_over_witness :
  chat (Ok 0) (fun b _ => (Ok "hello", S b))
       (Ok (PDict [("id", PStr "u1"); ("query", PStr "hi")])) []
  = (Succeeded (Some "hello"), [(PStr "u1", 1)])
  /\ chat (Ok 0) (fun b _ => (Ok "hello", S b))
          (Ok (PDict [("id", PStr "u1"); ("query", PStr "again")]))
          [(PStr "u1", 1)]
     = (Succeeded (Some "hello"), [(PStr "u1", 2)]).
Proof.
  exact (chat_carries_bot_over (Ok 0) (fun b _ => (Ok "hello", S b))
           "u1" (PStr "hi") (PStr "again") 0 eq_refl).
Defined.
